(** * arcasHLA [scripts/extract.py]: extraction of chromosome 6 reads

    A shallow embedding of [index_bam], [extract_reads] and the sample-name
    computation of the main block, followed by the properties of the
    command sequence they issue.

    Text is kept as byte strings (UTF-8): a substring test on the decoded
    text and on its UTF-8 bytes agree, and ['.'] and ['/'] are single
    bytes that occur in no multi-byte sequence.  Decoding bytes as UTF-8
    therefore returns the bytes themselves, and fails on bytes that are
    not well-formed UTF-8. *)

From Stdlib Require Import String Ascii List Bool Arith ZArith Lia.
Import ListNotations.
Open Scope list_scope.
Open Scope string_scope.

Set Implicit Arguments.

(** ** Python's string operations *)

Module PyStr.

(** [sep.join(parts)] *)
Definition join (sep : string) (parts : list string) : string :=
  String.concat sep parts.

(** [sub in s] *)
Fixpoint contains (sub s : string) : bool :=
  if String.prefix sub s then true
  else match s with
       | EmptyString => false
       | String _ s' => contains sub s'
       end.

(** What [in] decides: [sub] occurs somewhere inside [s]. *)
Definition occurs_in (sub s : string) : Prop :=
  exists before after, s = before ++ sub ++ after.

(** [s.rfind(c)] for a one-character needle, counting positions from
    [i]; [-1] when [c] does not occur. *)
Fixpoint rfind_from (c : ascii) (s : string) (i : Z) : Z :=
  match s with
  | EmptyString => (-1)%Z
  | String a s' =>
      let r := rfind_from c s' (i + 1) in
      if (0 <=? r)%Z then r
      else if Ascii.eqb a c then i else (-1)%Z
  end.

Definition rfind (c : ascii) (s : string) : Z := rfind_from c s 0.

(** Bounds of a slice are clipped the way Python clips them. *)
Definition clip (i len : Z) : Z :=
  if (i <? 0)%Z then Z.max 0 (len + i) else Z.min i len.

(** [s[i:j]] *)
Definition slice (s : string) (i j : Z) : string :=
  let len := Z.of_nat (String.length s) in
  let lo := clip i len in
  let hi := clip j len in
  String.substring (Z.to_nat lo) (Z.to_nat (hi - lo)) s.

(** [s[i:]] *)
Definition slice_from (s : string) (i : Z) : string :=
  slice s i (Z.of_nat (String.length s)).

(** [s[:j]] *)
Definition slice_to (s : string) (j : Z) : string := slice s 0 j.

(** [s.split(c)] for a one-character separator. *)
Fixpoint split (c : ascii) (s : string) : list string :=
  match s with
  | EmptyString => [EmptyString]
  | String a s' =>
      if Ascii.eqb a c then EmptyString :: split c s'
      else match split c s' with
           | [] => [String a EmptyString]
           | piece :: pieces => String a piece :: pieces
           end
  end.

(** The last character, if any. *)
Fixpoint last_char (s : string) : option ascii :=
  match s with
  | EmptyString => None
  | String a EmptyString => Some a
  | String _ s' => last_char s'
  end.

(** *** [bytes.decode('utf-8')]

    The strict decoder accepts the well-formed byte sequences of the
    Unicode standard (table 3-7): no overlong form, no surrogate, no
    code point above U+10FFFF, no stray or missing continuation
    byte. *)
Definition byte_in (lo hi : nat) (b : ascii) : bool :=
  (lo <=? nat_of_ascii b)%nat && (nat_of_ascii b <=? hi)%nat.

Definition is_continuation (b : ascii) : bool := byte_in 128 191 b.

(** The second byte of a three-byte sequence that starts with [b0]. *)
Definition second_of_three (b0 b1 : ascii) : bool :=
  if byte_in 224 224 b0 then byte_in 160 191 b1
  else if byte_in 237 237 b0 then byte_in 128 159 b1
  else byte_in 128 191 b1.

(** The second byte of a four-byte sequence that starts with [b0]. *)
Definition second_of_four (b0 b1 : ascii) : bool :=
  if byte_in 240 240 b0 then byte_in 144 191 b1
  else if byte_in 244 244 b0 then byte_in 128 143 b1
  else byte_in 128 191 b1.

Fixpoint utf8_valid (s : string) : bool :=
  match s with
  | EmptyString => true
  | String b0 s1 =>
      if byte_in 0 127 b0 then utf8_valid s1
      else if byte_in 194 223 b0 then
        match s1 with
        | String b1 s2 => is_continuation b1 && utf8_valid s2
        | _ => false
        end
      else if byte_in 224 239 b0 then
        match s1 with
        | String b1 (String b2 s3) =>
            second_of_three b0 b1 && is_continuation b2 && utf8_valid s3
        | _ => false
        end
      else if byte_in 240 244 b0 then
        match s1 with
        | String b1 (String b2 (String b3 s4)) =>
            second_of_four b0 b1 && is_continuation b2
            && is_continuation b3 && utf8_valid s4
        | _ => false
        end
      else false
  end.

(** [b.decode('utf-8')]: the text, or [None] where Python raises
    [UnicodeDecodeError]. *)
Definition decode_utf8 (b : string) : option string :=
  if utf8_valid b then Some b else None.

(** Whether every byte is below 128. *)
Fixpoint all_ascii (s : string) : bool :=
  match s with
  | EmptyString => true
  | String b s' => byte_in 0 127 b && all_ascii s'
  end.

(** Number of occurrences of the character [c]. *)
Fixpoint count (c : ascii) (s : string) : nat :=
  match s with
  | EmptyString => 0
  | String a s' => (if Ascii.eqb a c then 1 else 0) + count c s'
  end.

End PyStr.

(** ** [os.path] (posixpath) *)

Module OsPath.
Import PyStr.

Definition sep : ascii := "/"%char.
Definition extsep : ascii := "."%char.

(** [os.path.basename]: [i = p.rfind('/') + 1; return p[i:]] *)
Definition basename (p : string) : string :=
  let i := (rfind sep p + 1)%Z in
  slice_from p i.

(** The [while filenameIndex < dotIndex] loop of [genericpath._splitext];
    [n] bounds the iterations left.  [true] when a character other than
    the extension separator is met before [dotIndex]. *)
Fixpoint skip_leading_dots (p : string) (filenameIndex dotIndex : Z) (n : nat) : bool :=
  match n with
  | O => false
  | S n' =>
      if (filenameIndex <? dotIndex)%Z then
        if negb (String.eqb (slice p filenameIndex (filenameIndex + 1))
                            (String extsep EmptyString))
        then true
        else skip_leading_dots p (filenameIndex + 1) dotIndex n'
      else false
  end.

(** [os.path.splitext] *)
Definition splitext (p : string) : string * string :=
  let sepIndex := rfind sep p in
  let dotIndex := rfind extsep p in
  if (sepIndex <? dotIndex)%Z then
    let filenameIndex := (sepIndex + 1)%Z in
    if skip_leading_dots p filenameIndex dotIndex
         (Z.to_nat (dotIndex - filenameIndex))
    then (slice_to p dotIndex, slice_from p dotIndex)
    else (p, slice_to p 0)
  else (p, slice_to p 0).

End OsPath.

(** ** Scripts: the effects of the program

    [extract.py] talks to its surroundings through [os.path.isfile],
    [sys.exit], [logging.info] and the two helpers it imports from
    [arcas_utilities], [run_command] and [remove_files].  A script is the
    tree of these requests; what the surroundings answer is supplied by an
    environment when the script is run. *)

(** An argparse [count] option: [False] (which is [0]) when absent, the
    number of occurrences otherwise. *)
Definition pyflag := nat.

Definition truthy (f : pyflag) : bool := negb (Nat.eqb f 0).

(** The object returned by [run_command]; the program reads only
    [output.stdout], the bytes the command printed. *)
Record CompletedProcess : Type := { stdout : string }.

(** The exceptions the program can raise and does not catch. *)
Inductive PyExc : Type :=
| UnicodeDecodeError.

Inductive Script (A : Type) : Type :=
| Ret (a : A)
| SysExit (msg : string)
| Raise (exc : PyExc)
| LogInfo (msg : string) (k : Script A)
| IsFile (path : string) (k : bool -> Script A)
| RunCommand (command : list string) (message : string)
             (k : CompletedProcess -> Script A)
| RemoveFiles (files : list string) (keep_files : pyflag) (k : Script A).

Arguments SysExit {A} msg.
Arguments Raise {A} exc.

Fixpoint bind {A B : Type} (p : Script A) (f : A -> Script B) : Script B :=
  match p with
  | Ret a => f a
  | SysExit msg => SysExit msg
  | Raise exc => Raise exc
  | LogInfo msg k => LogInfo msg (bind k f)
  | IsFile path k => IsFile path (fun b => bind (k b) f)
  | RunCommand c m k => RunCommand c m (fun out => bind (k out) f)
  | RemoveFiles fs keep k => RemoveFiles fs keep (bind k f)
  end.

Declare Scope script_scope.
Delimit Scope script_scope with script.
Bind Scope script_scope with Script.
Notation "x <- p ;; q" := (bind p (fun x => q))
  (at level 61, p at next level, right associativity) : script_scope.
Notation "p ;; q" := (bind p (fun _ => q))
  (at level 61, right associativity) : script_scope.

Definition sys_exit {A} (msg : string) : Script A := SysExit msg.

(** [b.decode('utf-8')] as a step of a script. *)
Definition decode (b : string) : Script string :=
  match PyStr.decode_utf8 b with
  | Some text => Ret text
  | None => Raise UnicodeDecodeError
  end.
Definition log_info (msg : string) : Script unit := LogInfo msg (Ret tt).
Definition isfile (path : string) : Script bool := IsFile path (fun b => Ret b).
Definition run_command (command : list string) (message : string)
  : Script CompletedProcess :=
  RunCommand command message (fun out => Ret out).
Definition remove_files (files : list string) (keep_files : pyflag) : Script unit :=
  RemoveFiles files keep_files (Ret tt).

(** [l.append(x)] and [l.extend(xs)], returning the updated list. *)
Definition append {X : Type} (l : list X) (x : X) : list X := app l [x].
Definition extend {X : Type} (l xs : list X) : list X := app l xs.

(** [for x in xs: body(x)] *)
Fixpoint for_each {X : Type} (xs : list X) (body : X -> Script unit) : Script unit :=
  match xs with
  | [] => Ret tt
  | x :: xs' => bind (body x) (fun _ => for_each xs' body)
  end.

(** ** The program *)

Module ExtractPy.
Import PyStr OsPath.
Local Open Scope script_scope.

Definition newline : string := String "010"%char EmptyString.

(** [index_bam]: attempts to index BAM if .bai file is not found. *)
Definition index_bam (bam : string) : Script unit :=
  found <- isfile (join "" [bam; ".bai"]) ;;
  (if negb found
   then _ <- run_command ["samtools"; "index"; bam] "[extract] indexing bam: " ;;
        Ret tt
   else Ret tt) ;;
  found <- isfile (join "" [bam; ".bai"]) ;;
  if negb found
  then sys_exit "[extract] Error: unable to index bam file."
  else Ret tt.

(** [extract_reads]: extracts reads from chromosome 6 and alts/decoys
    if applicable. *)
Definition extract_reads (bam outdir : string) (paired unmapped : pyflag)
           (alts : list string) (temp threads : string)
           (keep_files : pyflag) : Script unit :=
  log_info (newline ++ "[extract] extracting reads from " ++ bam) ;;
  let file_list : list string := [] in
  let sample := fst (splitext (basename bam)) in
  (* Index bam *)
  index_bam bam ;;
  let hla_filtered := join "" [temp; sample; ".hla.sam"] in
  let file_list := append file_list hla_filtered in
  let hla_filtered_bam := join "" [temp; sample; ".hla.bam"] in
  let file_list := append file_list hla_filtered_bam in
  (* Get bam header to check for chromosome nomenclature *)
  output <- run_command ["samtools"; "view"; "-@" ++ threads; "-H"; bam] "" ;;
  header <- decode (stdout output) ;;
  let chrom := if contains "SN:chr" header then "chr6" else "6" in
  (* Extract BAM header *)
  let message := "[extract] extracting chromosome 6: " in
  let command := ["samtools"; "view"; "-H"; "-@" ++ threads] in
  let command := extend command [bam; "-o"; hla_filtered] in
  _ <- run_command command message ;;
  (* Extracted reads mapped to chromosome 6 *)
  let message := "[extract] extracting chromosome 6: " in
  let command := ["samtools"; "view"; "-@" ++ threads] in
  let command := if truthy paired then append command "-f 2"
                 else append command "-F 4" in
  let command := extend command [bam; chrom; ">>"; hla_filtered] in
  _ <- run_command command message ;;
  (* Extract unmapped reads *)
  (if truthy unmapped then
     let message := "[extract] extracting chromosome 6: " in
     let command := ["samtools"; "view"; "-@" ++ threads] in
     let command := if truthy paired then append command "-f 12"
                    else append command "-f 4" in
     let command := extend command [bam; chrom; ">>"; hla_filtered] in
     _ <- run_command command message ;;
     Ret tt
   else Ret tt) ;;
  (* Check for alts in header and extract reads if present *)
  for_each alts (fun alt =>
    if contains alt header then
      let command := ["samtools"; "view"; "-@" ++ threads] in
      let command := if truthy paired then append command "-f 2"
                     else append command "-F 4" in
      let command := extend command [bam; alt ++ ":"; ">>"; hla_filtered] in
      _ <- run_command command "" ;;
      Ret tt
    else Ret tt) ;;
  (* Convert SAM to BAM *)
  let message := "[extract] converting SAM to BAM: " in
  let command := ["samtools"; "view"; "-Sb"; "-@" ++ threads;
                  hla_filtered; ">"; hla_filtered_bam] in
  _ <- run_command command message ;;
  (* Sort BAM *)
  let hla_sorted := join "" [temp; sample; ".hla.sorted.bam"] in
  let file_list := append file_list hla_sorted in
  let message := "[extract] sorting bam: " in
  let command := ["samtools"; "sort"; "-n"; "-@" ++ threads;
                  hla_filtered_bam; "-o"; hla_sorted] in
  _ <- run_command command message ;;
  (* Convert BAM to FASTQ and compress *)
  let message := "[extract] converting bam to fastq: " in
  let command := ["bedtools"; "bamtofastq"; "-i"; hla_sorted] in
  (if truthy paired then
     let fq1 := join "" [outdir; sample; ".extracted.1.fq"] in
     let fq2 := join "" [outdir; sample; ".extracted.2.fq"] in
     let command := extend command ["-fq"; fq1; "-fq2"; fq2] in
     _ <- run_command command message ;;
     _ <- run_command ["pigz"; "-f"; "-p"; threads; "-S"; ".gz"; fq1] "" ;;
     _ <- run_command ["pigz"; "-f"; "-p"; threads; "-S"; ".gz"; fq2] "" ;;
     Ret tt
   else
     let fq := join "" [outdir; sample; ".extracted.fq"] in
     let command := extend command ["-fq"; fq] in
     _ <- run_command command message ;;
     _ <- run_command ["pigz"; "-f"; "-p"; threads; "-S"; ".gz"; fq] "" ;;
     Ret tt) ;;
  remove_files file_list keep_files.

(** The main block, lines 221-226: the sample name that is logged and
    the log file that is opened. *)
Definition main_sample (bam : string) : string :=
  nth 0 (split "."%char (basename bam)) EmptyString.

Definition main_log_file (log : option string) (outdir bam : string) : string :=
  match log with
  | Some l => if String.eqb l "" then join "" [outdir; main_sample bam; ".extract.log"] else l
  | None => join "" [outdir; main_sample bam; ".extract.log"]
  end.

End ExtractPy.

(** ** Running a script

    The surroundings are a deterministic machine over some type of worlds
    (file system, log, installed tools).  [run_command] and [remove_files]
    belong to [arcas_utilities], outside this file, and [samtools],
    [bedtools] and [pigz] are external programs: what they do to the world
    and what they print is a parameter.  [os.path.isfile] only reads the
    world. *)

Record Env (W : Type) : Type := {
  env_isfile : W -> string -> bool;
  env_log_info : string -> W -> W;
  env_run_command : list string -> string -> W -> W * CompletedProcess;
  env_remove_files : list string -> pyflag -> W -> W
}.

Inductive Event : Type :=
| EvLog (msg : string)
| EvIsFile (path : string) (found : bool)
| EvRun (command : list string) (message : string) (out : CompletedProcess)
| EvRemove (files : list string) (keep_files : pyflag).

Inductive Outcome (A : Type) : Type :=
| Returned (a : A)
| Exited (msg : string)
| Raised (exc : PyExc).

Arguments Exited {A} msg.
Arguments Raised {A} exc.

Record Result (W A : Type) : Type := {
  trace : list Event;
  final : W;
  outcome : Outcome A
}.

Definition emit {W A} (ev : Event) (r : Result W A) : Result W A :=
  {| trace := ev :: trace r; final := final r; outcome := outcome r |}.

Fixpoint run {W A} (E : Env W) (p : Script A) (w : W) : Result W A :=
  match p with
  | Ret a => {| trace := []; final := w; outcome := Returned a |}
  | SysExit msg => {| trace := []; final := w; outcome := Exited msg |}
  | Raise exc => {| trace := []; final := w; outcome := Raised exc |}
  | LogInfo msg k =>
      emit (EvLog msg) (run E k (env_log_info E msg w))
  | IsFile path k =>
      let b := env_isfile E w path in
      emit (EvIsFile path b) (run E (k b) w)
  | RunCommand c m k =>
      let res := env_run_command E c m w in
      emit (EvRun c m (snd res)) (run E (k (snd res)) (fst res))
  | RemoveFiles fs keep k =>
      emit (EvRemove fs keep) (run E k (env_remove_files E fs keep w))
  end.

(** Sequencing of results: [f] continues from where [r] returned, and
    nothing follows [sys.exit] or an exception. *)
Definition and_then {W A B} (r : Result W A) (f : A -> W -> Result W B)
  : Result W B :=
  match outcome r with
  | Returned a =>
      let r' := f a (final r) in
      {| trace := trace r ++ trace r'; final := final r'; outcome := outcome r' |}
  | Exited msg =>
      {| trace := trace r; final := final r; outcome := Exited msg |}
  | Raised exc =>
      {| trace := trace r; final := final r; outcome := Raised exc |}
  end.

(** The argument vectors handed to [run_command], in order. *)
Fixpoint commands (tr : list Event) : list (list string) :=
  match tr with
  | [] => []
  | EvRun c _ _ :: tr' => c :: commands tr'
  | _ :: tr' => commands tr'
  end.

(** The calls of [remove_files], in order. *)
Fixpoint removals (tr : list Event) : list (list string * pyflag) :=
  match tr with
  | [] => []
  | EvRemove fs keep :: tr' => (fs, keep) :: removals tr'
  | _ :: tr' => removals tr'
  end.

(** Everything in a trace that is not a command. *)
Fixpoint others (tr : list Event) : list Event :=
  match tr with
  | [] => []
  | EvRun _ _ _ :: tr' => others tr'
  | ev :: tr' => ev :: others tr'
  end.

(** ** A small world to run the program in

    A world is the list of files that exist.  [samtools index x] creates
    [x.bai] unless [x] is listed as broken; [samtools view ... -H x] prints
    the header stored for [x]; everything else leaves the files alone. *)

Module Toy.
Import PyStr.

Record world : Type := {
  files : list string;
  broken : list string;
  headers : list (string * string)
}.

Definition mem (x : string) (l : list string) : bool :=
  existsb (String.eqb x) l.

Fixpoint lookup (x : string) (l : list (string * string)) : string :=
  match l with
  | [] => ""
  | (k, v) :: l' => if String.eqb k x then v else lookup x l'
  end.

Definition toy_run (c : list string) (m : string) (w : world)
  : world * CompletedProcess :=
  match c with
  | ["samtools"; "index"; x] =>
      if mem x (broken w) then (w, {| stdout := "" |})
      else ({| files := (x ++ ".bai") :: files w;
               broken := broken w; headers := headers w |},
            {| stdout := "" |})
  | ["samtools"; "view"; _; "-H"; x] =>
      (w, {| stdout := lookup x (headers w) |})
  | _ => (w, {| stdout := "" |})
  end.

Definition env : Env world := {|
  env_isfile := fun w p => mem p (files w);
  env_log_info := fun _ w => w;
  env_run_command := toy_run;
  env_remove_files := fun _ _ w => w
|}.

(** A BAM file whose header names [chr6] and one alt contig. *)
Definition sample_bam : string := "/data/NA12878.sorted.bam".

Definition sample_header : string := "@SQ SN:chr6 LN:170805979 @SQ SN:chr6_GL000250v2_alt".

Definition w_ok : world :=
  {| files := []; broken := []; headers := [(sample_bam, sample_header)] |}.

(** The same, with a BAM file that [samtools index] cannot index. *)
Definition w_broken : world :=
  {| files := []; broken := [sample_bam];
     headers := [(sample_bam, sample_header)] |}.

(** The same BAM file with a header comment in Latin-1: the byte 233
    followed by a space is not UTF-8. *)
Definition latin1_header : string :=
  "@SQ SN:chr6 LN:170805979 @CO caf" ++ String "233"%char " noir".

Definition w_latin1 : world :=
  {| files := []; broken := []; headers := [(sample_bam, latin1_header)] |}.

(** The index is already there. *)
Definition w_indexed : world :=
  {| files := [sample_bam ++ ".bai"]; broken := [];
     headers := [(sample_bam, sample_header)] |}.

End Toy.

(** ** Names for what a run is expected to show

    The arguments of one call of [extract_reads], and the argument vectors
    of the commands of each stage written out token by token. *)

Record Args : Type := {
  bam : string;
  outdir : string;
  paired : pyflag;
  unmapped : pyflag;
  alts : list string;
  temp : string;
  threads : string;
  keep_files : pyflag
}.

Module Pipeline.
Import PyStr OsPath.

Definition call (a : Args) : Script unit :=
  ExtractPy.extract_reads (bam a) (outdir a) (paired a) (unmapped a)
                        (alts a) (temp a) (threads a) (keep_files a).

Definition index_error : string := "[extract] Error: unable to index bam file.".

Definition bai (bam : string) : string := bam ++ ".bai".

(** The sample name of [extract_reads]. *)
Definition sample (a : Args) : string := fst (splitext (basename (bam a))).

Definition hla_filtered (a : Args) : string := temp a ++ sample a ++ ".hla.sam".
Definition hla_filtered_bam (a : Args) : string := temp a ++ sample a ++ ".hla.bam".
Definition hla_sorted (a : Args) : string := temp a ++ sample a ++ ".hla.sorted.bam".

Definition intermediate_files (a : Args) : list string :=
  [hla_filtered a; hla_filtered_bam a; hla_sorted a].

(** The FASTQ files written by [bedtools bamtofastq]. *)
Definition fastq_files (a : Args) : list string :=
  if truthy (paired a)
  then [outdir a ++ sample a ++ ".extracted.1.fq";
        outdir a ++ sample a ++ ".extracted.2.fq"]
  else [outdir a ++ sample a ++ ".extracted.fq"].

Definition cmd_index (bam : string) : list string := ["samtools"; "index"; bam].

Definition cmd_header_dump (a : Args) : list string :=
  ["samtools"; "view"; "-@" ++ threads a; "-H"; bam a].

Definition cmd_header_only (a : Args) : list string :=
  ["samtools"; "view"; "-H"; "-@" ++ threads a; bam a; "-o"; hla_filtered a].

(** A read extraction: the reads of [region] that pass [flag_filter] are
    appended to the filtered SAM file. *)
Definition cmd_region (a : Args) (flag_filter region : string) : list string :=
  ["samtools"; "view"; "-@" ++ threads a; flag_filter; bam a; region;
   ">>"; hla_filtered a].

Definition mapped_filter (a : Args) : string :=
  if truthy (paired a) then "-f 2" else "-F 4".

Definition unmapped_filter (a : Args) : string :=
  if truthy (paired a) then "-f 12" else "-f 4".

Definition chrom_of (header : string) : string :=
  if contains "SN:chr" header then "chr6" else "6".

Definition cmd_sam_to_bam (a : Args) : list string :=
  ["samtools"; "view"; "-Sb"; "-@" ++ threads a; hla_filtered a; ">";
   hla_filtered_bam a].

Definition cmd_sort (a : Args) : list string :=
  ["samtools"; "sort"; "-n"; "-@" ++ threads a; hla_filtered_bam a; "-o";
   hla_sorted a].

Definition cmd_bamtofastq (a : Args) : list string :=
  if truthy (paired a)
  then ["bedtools"; "bamtofastq"; "-i"; hla_sorted a;
        "-fq"; outdir a ++ sample a ++ ".extracted.1.fq";
        "-fq2"; outdir a ++ sample a ++ ".extracted.2.fq"]
  else ["bedtools"; "bamtofastq"; "-i"; hla_sorted a;
        "-fq"; outdir a ++ sample a ++ ".extracted.fq"].

Definition cmd_pigz (a : Args) (fq : string) : list string :=
  ["pigz"; "-f"; "-p"; threads a; "-S"; ".gz"; fq].

(** The alt/decoy contigs named in the header, in the order of [alts]. *)
Definition alts_present (a : Args) (header : string) : list string :=
  filter (fun alt => contains alt header) (alts a).

Definition unmapped_step (a : Args) (header : string) : list (list string) :=
  if truthy (unmapped a)
  then [cmd_region a (unmapped_filter a) (chrom_of header)]
  else [].

Definition alt_steps (a : Args) (header : string) : list (list string) :=
  map (fun alt => cmd_region a (mapped_filter a) (alt ++ ":"))
      (alts_present a header).

(** Everything after indexing, for a BAM file whose header is [header]. *)
Definition body (a : Args) (header : string) : list (list string) :=
  ([cmd_header_dump a; cmd_header_only a;
    cmd_region a (mapped_filter a) (chrom_of header)]
   ++ unmapped_step a header
   ++ alt_steps a header
   ++ [cmd_sam_to_bam a; cmd_sort a; cmd_bamtofastq a]
   ++ map (cmd_pigz a) (fastq_files a))%list.

Definition index_step (bam : string) (needed : bool) : list (list string) :=
  if needed then [cmd_index bam] else [].

(** A token that [samtools view] reads as a filter on SAM flags. *)
Definition is_flag_filter (tok : string) : bool :=
  String.prefix "-f" tok || String.prefix "-F" tok.

(** The external tool a command line starts. *)
Inductive Tool : Type :=
| SamtoolsIndex | SamtoolsView | SamtoolsSort | BedtoolsBamToFastq | Pigz
| OtherTool.

Definition tool_of (command : list string) : Tool :=
  match command with
  | "samtools" :: "index" :: _ => SamtoolsIndex
  | "samtools" :: "view" :: _ => SamtoolsView
  | "samtools" :: "sort" :: _ => SamtoolsSort
  | "bedtools" :: "bamtofastq" :: _ => BedtoolsBamToFastq
  | "pigz" :: _ => Pigz
  | _ => OtherTool
  end.

(** Position of a tool in the pipeline. *)
Definition rank (t : Tool) : nat :=
  match t with
  | SamtoolsIndex => 0
  | SamtoolsView => 1
  | SamtoolsSort => 2
  | BedtoolsBamToFastq => 3
  | Pigz => 4
  | OtherTool => 5
  end.

Definition list_string_eqb (l1 l2 : list string) : bool :=
  if list_eq_dec string_dec l1 l2 then true else false.

(** What the header dump printed: the bytes put out by the first command
    of the trace that is the header dump. *)
Fixpoint dump_output (a : Args) (tr : list Event) : option string :=
  match tr with
  | [] => None
  | EvRun c _ out :: tr' =>
      if list_string_eqb c (cmd_header_dump a) then Some (stdout out)
      else dump_output a tr'
  | _ :: tr' => dump_output a tr'
  end.

(** The header the program reads: what the header dump printed, decoded
    as UTF-8. *)
Definition dump_header (a : Args) (tr : list Event) : option string :=
  match dump_output a tr with
  | Some raw => decode_utf8 raw
  | None => None
  end.

(** The world in which [index_bam] starts: [extract_reads] has logged
    its first line. *)
Definition start_world {W} (E : Env W) (a : Args) (w : W) : W :=
  env_log_info E
    (ExtractPy.newline ++ "[extract] extracting reads from " ++ bam a) w.

(** Whether [index_bam] has to call [samtools index]. *)
Definition index_needed {W} (E : Env W) (a : Args) (w : W) : bool :=
  negb (env_isfile E (start_world E a w) (bai (bam a))).

(** Whether [index_bam] gives up: an index was needed and there is still
    none after [samtools index] has run. *)
Definition index_fails {W} (E : Env W) (a : Args) (w : W) : bool :=
  index_needed E a w
  && negb (env_isfile E
             (fst (env_run_command E (cmd_index (bam a))
                     "[extract] indexing bam: " (start_world E a w)))
             (bai (bam a))).

(** The run of [extract_reads a] from world [w]. *)
Definition extract_run {W} (E : Env W) (a : Args) (w : W) : Result W unit :=
  run E (call a) w.

(** *** Command lines with the thread count left open

    A token is either text that does not come from [threads], or one of
    the two ways the thread count is handed on. *)
Inductive Tok : Type :=
| Lit (s : string)
| ThreadOpt
| ThreadVal.

Definition fill (threads : string) (t : Tok) : string :=
  match t with
  | Lit s => s
  | ThreadOpt => "-@" ++ threads
  | ThreadVal => threads
  end.

(** The places of a template that take the thread count. *)
Definition thread_uses (tpl : list Tok) : list Tok :=
  filter (fun t => match t with Lit _ => false | _ => true end) tpl.

(** What each tool is given of the thread count. *)
Definition thread_uses_of (t : Tool) : list Tok :=
  match t with
  | SamtoolsView | SamtoolsSort => [ThreadOpt]
  | Pigz => [ThreadVal]
  | _ => []
  end.

Section Templates.
(** Every argument of [extract_reads] but [threads]. *)
Variables (bam0 outdir0 temp0 : string) (paired0 unmapped0 : pyflag)
          (alts0 : list string).

Let sample0 : string := fst (splitext (basename bam0)).
Let sam : string := temp0 ++ sample0 ++ ".hla.sam".
Let fbam : string := temp0 ++ sample0 ++ ".hla.bam".
Let sorted : string := temp0 ++ sample0 ++ ".hla.sorted.bam".
Let mapped : string := if truthy paired0 then "-f 2" else "-F 4".

Definition tpl_region (flt region : string) : list Tok :=
  [Lit "samtools"; Lit "view"; ThreadOpt; Lit flt; Lit bam0; Lit region;
   Lit ">>"; Lit sam].

Definition tpl_pigz (fq : string) : list Tok :=
  [Lit "pigz"; Lit "-f"; Lit "-p"; ThreadVal; Lit "-S"; Lit ".gz"; Lit fq].

(** [fails]: [index_bam] gives up; [header]: the decoded header, if
    the header dump decodes. *)
Definition templates (needed fails : bool) (header : option string)
  : list (list Tok) :=
  ((if needed then [[Lit "samtools"; Lit "index"; Lit bam0]] else [])
   ++ (if fails then []
       else [[Lit "samtools"; Lit "view"; ThreadOpt; Lit "-H"; Lit bam0]])
   ++ (match (if fails then None else header) with
       | None => []
       | Some header =>
            [[Lit "samtools"; Lit "view"; Lit "-H"; ThreadOpt; Lit bam0;
              Lit "-o"; Lit sam];
             tpl_region mapped (chrom_of header)]
            ++ (if truthy unmapped0
                then [tpl_region (if truthy paired0 then "-f 12" else "-f 4")
                                 (chrom_of header)]
                else [])
            ++ map (fun alt => tpl_region mapped (alt ++ ":"))
                   (filter (fun alt => contains alt header) alts0)
            ++ [[Lit "samtools"; Lit "view"; Lit "-Sb"; ThreadOpt; Lit sam;
                 Lit ">"; Lit fbam];
                [Lit "samtools"; Lit "sort"; Lit "-n"; ThreadOpt; Lit fbam;
                 Lit "-o"; Lit sorted]]
            ++ (if truthy paired0
                then [[Lit "bedtools"; Lit "bamtofastq"; Lit "-i"; Lit sorted;
                       Lit "-fq";
                       Lit (outdir0 ++ sample0 ++ ".extracted.1.fq")%string;
                       Lit "-fq2";
                       Lit (outdir0 ++ sample0 ++ ".extracted.2.fq")%string];
                      tpl_pigz (outdir0 ++ sample0 ++ ".extracted.1.fq");
                      tpl_pigz (outdir0 ++ sample0 ++ ".extracted.2.fq")]
                else [[Lit "bedtools"; Lit "bamtofastq"; Lit "-i"; Lit sorted;
                       Lit "-fq";
                       Lit (outdir0 ++ sample0 ++ ".extracted.fq")%string];
                      tpl_pigz (outdir0 ++ sample0 ++ ".extracted.fq")])
       end))%list.

End Templates.

(** The world in which the header dump runs: [index_bam] has returned. *)
Definition indexed_world {W} (E : Env W) (a : Args) (w : W) : W :=
  final (run E (ExtractPy.index_bam (bam a)) (start_world E a w)).

(** What the header dump prints in that world. *)
Definition header_at {W} (E : Env W) (a : Args) (w : W) : string :=
  stdout (snd (env_run_command E (cmd_header_dump a) "" (indexed_world E a w))).

(** Whether the run gets through: [index_bam] does not give up and the
    header dump decodes. *)
Definition completes {W} (E : Env W) (a : Args) (w : W) : bool :=
  negb (index_fails E a w)
  && match decode_utf8 (header_at E a w) with Some _ => true | None => false end.

(** Two calls with the same paths, thread count and alts, in which
    [paired] and [unmapped] are set or not set alike; [keep_files] and
    the number of times a flag was given may differ. *)
Definition same_call (a1 a2 : Args) : Prop :=
  bam a1 = bam a2 /\ outdir a1 = outdir a2 /\ temp a1 = temp a2
  /\ threads a1 = threads a2 /\ alts a1 = alts a2
  /\ truthy (paired a1) = truthy (paired a2)
  /\ truthy (unmapped a1) = truthy (unmapped a2).

(** A paired-end call with unmapped reads, on the sample BAM file. *)
Definition sample_args : Args :=
  {| bam := Toy.sample_bam; outdir := "out/"; paired := 1; unmapped := 1;
     alts := ["chr6_GL000250v2_alt"; "HLA-A*01:01:01:01"];
     temp := "/tmp/"; threads := "4"; keep_files := 0 |}.

(** A single-end call without unmapped reads. *)
Definition single_args : Args :=
  {| bam := Toy.sample_bam; outdir := "out/"; paired := 0; unmapped := 0;
     alts := ["chr6_GL000250v2_alt"; "HLA-A*01:01:01:01"];
     temp := "/tmp/"; threads := "4"; keep_files := 0 |}.

(** The sample call with [--paired] given three times and the
    intermediate files kept. *)
Definition sample_args_kept : Args :=
  {| bam := Toy.sample_bam; outdir := "out/"; paired := 3; unmapped := 1;
     alts := ["chr6_GL000250v2_alt"; "HLA-A*01:01:01:01"];
     temp := "/tmp/"; threads := "4"; keep_files := 1 |}.

(** The sample call on a BAM file of the same name in another
    directory. *)
Definition sample_args_elsewhere : Args :=
  {| bam := "/archive/2018/NA12878.sorted.bam"; outdir := "out/";
     paired := 1; unmapped := 0; alts := [];
     temp := "/tmp/"; threads := "8"; keep_files := 0 |}.

End Pipeline.

(** ** Facts about strings *)

Section StringFacts.
Import PyStr.

Lemma append_nil_r (s : string) : s ++ "" = s.
Proof. induction s as [|c s IH]; simpl; [reflexivity | now rewrite IH]. Qed.

Lemma append_assoc (s t u : string) : (s ++ t) ++ u = s ++ (t ++ u).
Proof. induction s as [|c s IH]; simpl; [reflexivity | now rewrite IH]. Qed.

Lemma length_append (s t : string) :
  String.length (s ++ t) = String.length s + String.length t.
Proof. induction s as [|c s IH]; simpl; [reflexivity | now rewrite IH]. Qed.

Lemma join3 (a b c : string) : join "" [a; b; c] = a ++ b ++ c.
Proof. reflexivity. Qed.

Lemma join2 (a b : string) : join "" [a; b] = a ++ b.
Proof. reflexivity. Qed.

Lemma prefix_true_iff (p s : string) :
  String.prefix p s = true <-> exists rest, s = p ++ rest.
Proof.
  revert s; induction p as [|c p IH]; intros s.
  - destruct s; simpl; (split; [intros _; eexists; reflexivity | reflexivity]).
  - destruct s as [|d s]; simpl.
    + split; [discriminate | intros [rest H]; discriminate].
    + destruct (Ascii.ascii_dec c d) as [->|Hne].
      * rewrite IH. split; intros [rest H]; exists rest.
        -- now rewrite H.
        -- now injection H.
      * split; [discriminate|].
        intros [rest H]. injection H as H1 _. congruence.
Qed.

Lemma contains_true_iff (sub s : string) :
  contains sub s = true <-> occurs_in sub s.
Proof.
  unfold occurs_in. induction s as [|c s IH]; cbn [contains].
  - destruct (String.prefix sub "") eqn:Hp.
    + split; [intros _|reflexivity].
      apply prefix_true_iff in Hp as [rest H]. now exists "", rest.
    + split; [discriminate|].
      intros [[|b before] [after H]]; simpl in H.
      * assert (String.prefix sub "" = true)
          by (apply prefix_true_iff; now exists after).
        congruence.
      * discriminate.
  - destruct (String.prefix sub (String c s)) eqn:Hp.
    + split; [intros _|reflexivity].
      apply prefix_true_iff in Hp as [rest H]. now exists "", rest.
    + rewrite IH. split.
      * intros (before & after & H). exists (String c before), after.
        simpl. now rewrite H.
      * intros ([|b before] & after & H); simpl in H.
        -- assert (String.prefix sub (String c s) = true)
             by (apply prefix_true_iff; now exists after).
           congruence.
        -- injection H as _ H. now exists before, after.
Qed.

Lemma contains_false_iff (sub s : string) :
  contains sub s = false <-> ~ occurs_in sub s.
Proof.
  rewrite <- contains_true_iff. destruct (contains sub s); split;
    congruence.
Qed.

Lemma last_char_append (s t : string) :
  t <> "" -> last_char (s ++ t) = last_char t.
Proof.
  intros Ht. induction s as [|c s IH]; [reflexivity|].
  cbn [String.append last_char]. rewrite IH.
  destruct (s ++ t) eqn:Hs; [|reflexivity].
  destruct s; [simpl in Hs; congruence | discriminate].
Qed.

Lemma append_inj_colon (x y : string) : x ++ ":" = y ++ ":" -> x = y.
Proof.
  revert y. induction x as [|c x IH]; intros [|d y] H; simpl in H.
  - reflexivity.
  - injection H as _ H. destruct y; discriminate.
  - injection H as _ H. destruct x; discriminate.
  - injection H as -> H. f_equal. now apply IH.
Qed.

Lemma append_colon_not_chr6 (x : string) : x ++ ":" <> "chr6".
Proof.
  intros H. apply (f_equal last_char) in H.
  rewrite last_char_append in H by discriminate. discriminate.
Qed.

Lemma append_colon_not_6 (x : string) : x ++ ":" <> "6".
Proof.
  intros H. apply (f_equal last_char) in H.
  rewrite last_char_append in H by discriminate. discriminate.
Qed.

End StringFacts.

(** ** Facts about running scripts *)

Section RunFacts.
Context {W : Type} (E : Env W).

Lemma and_then_emit {A B} ev (r : Result W A) (f : A -> W -> Result W B) :
  and_then (emit ev r) f = emit ev (and_then r f).
Proof. unfold and_then, emit; simpl. now destruct (outcome r). Qed.

Lemma run_bind {A B} (p : Script A) (f : A -> Script B) (w : W) :
  run E (bind p f) w = and_then (run E p w) (fun a w' => run E (f a) w').
Proof.
  revert w.
  induction p as [a|msg|exc|msg k IH|path k IH|c m k IH|fs keep k IH];
    intros w; simpl.
  - unfold and_then; simpl. now destruct (run E (f a) w).
  - reflexivity.
  - reflexivity.
  - now rewrite IH, and_then_emit.
  - now rewrite IH, and_then_emit.
  - now rewrite IH, and_then_emit.
  - now rewrite IH, and_then_emit.
Qed.

Lemma commands_app (t1 t2 : list Event) :
  commands (t1 ++ t2)%list = (commands t1 ++ commands t2)%list.
Proof.
  induction t1 as [|[m|p b|c m o|fs k] t1 IH]; simpl; try assumption.
  - reflexivity.
  - now rewrite IH.
Qed.

Lemma removals_app (t1 t2 : list Event) :
  removals (t1 ++ t2)%list = (removals t1 ++ removals t2)%list.
Proof.
  induction t1 as [|[m|p b|c m o|fs k] t1 IH]; simpl; try assumption.
  - reflexivity.
  - now rewrite IH.
Qed.

Lemma others_app (t1 t2 : list Event) :
  others (t1 ++ t2)%list = (others t1 ++ others t2)%list.
Proof.
  induction t1 as [|[m|p b|c m o|fs k] t1 IH]; simpl; try assumption;
    try (now rewrite IH).
  reflexivity.
Qed.

Lemma removals_others (tr : list Event) : removals (others tr) = removals tr.
Proof.
  induction tr as [|[m|p b|c m o|fs k] tr IH]; simpl; try assumption.
  - reflexivity.
  - now rewrite IH.
Qed.

End RunFacts.

(** ** The runs of [index_bam] and [extract_reads] *)

Section PipelineFacts.
Import PyStr OsPath ExtractPy Pipeline.
Context {W : Type} (E : Env W).

(** [index_bam], run from [w], written out. *)
Lemma index_bam_run (bam : string) (w : W) :
  let found_before := env_isfile E w (bai bam) in
  let res := env_run_command E (cmd_index bam) "[extract] indexing bam: " w in
  let w1 := if found_before then w else fst res in
  let found_after := env_isfile E w1 (bai bam) in
  run E (index_bam bam) w =
    {| trace := (EvIsFile (bai bam) found_before
                 :: (if found_before then []
                     else [EvRun (cmd_index bam) "[extract] indexing bam: " (snd res)])
                 ++ [EvIsFile (bai bam) found_after])%list;
       final := w1;
       outcome := if found_after then Returned tt else Exited index_error |}.
Proof.
  unfold index_bam, bai, cmd_index, index_error. rewrite join2. cbn.
  destruct (env_isfile E w (bam ++ ".bai")) eqn:Hb; cbn.
  - rewrite Hb. reflexivity.
  - destruct (env_isfile E (fst _) (bam ++ ".bai")); reflexivity.
Qed.


Lemma list_string_eqb_refl (l : list string) : list_string_eqb l l = true.
Proof. unfold list_string_eqb. now destruct (list_eq_dec string_dec l l). Qed.

Lemma list_string_eqb_neq (l1 l2 : list string) :
  l1 <> l2 -> list_string_eqb l1 l2 = false.
Proof.
  unfold list_string_eqb. now destruct (list_eq_dec string_dec l1 l2).
Qed.

(** The loop over [alts]: it returns, and issues one command for every
    name that passes the test. *)
Lemma run_for_each (test : string -> bool) (cmd_of : string -> list string)
      (l : list string) (w : W) :
  let r := run E (for_each l (fun x =>
               if test x
               then bind (run_command (cmd_of x) "") (fun _ => Ret tt)
               else Ret tt)) w in
  outcome r = Returned tt
  /\ commands (trace r) = map cmd_of (filter test l)
  /\ others (trace r) = [].
Proof.
  revert w. induction l as [|x l IH]; intros w; cbn [for_each].
  - cbn. auto.
  - rewrite run_bind. destruct (test x) eqn:Hx; cbn [filter]; rewrite Hx.
    + cbn [bind run_command run]. unfold and_then.
      cbn [emit outcome final trace].
      specialize (IH (fst (env_run_command E (cmd_of x) "" w))).
      cbv zeta in IH. cbn [bind run_command] in IH.
      destruct IH as (Ho & Hc & Hr).
      cbn [commands others app map]. rewrite Hc, Hr. auto.
    + cbn [run]. unfold and_then. cbn [outcome final trace].
      specialize (IH w). cbv zeta in IH. destruct IH as (Ho & Hc & Hr).
      cbn [app]. auto.
Qed.

Lemma snoc_shape {X} (A L B : list X) (x : X) :
  (A ++ L ++ (B ++ [x]) = (A ++ L ++ B) ++ [x])%list.
Proof. now rewrite !app_assoc. Qed.

Lemma extract_run_cases a w :
  let r := extract_run E a w in
  let raw := header_at E a w in
  (index_fails E a w = true
   /\ outcome r = Exited index_error
   /\ commands (trace r) = [cmd_index (bam a)]
   /\ others (trace r)
      = [EvLog (newline ++ "[extract] extracting reads from " ++ bam a);
         EvIsFile (bai (bam a)) false; EvIsFile (bai (bam a)) false]
   /\ dump_output a (trace r) = None)
  \/ (index_fails E a w = false
      /\ decode_utf8 raw = None
      /\ outcome r = Raised UnicodeDecodeError
      /\ dump_output a (trace r) = Some raw
      /\ commands (trace r)
         = (index_step (bam a) (index_needed E a w) ++ [cmd_header_dump a])%list
      /\ others (trace r)
         = [EvLog (newline ++ "[extract] extracting reads from " ++ bam a);
            EvIsFile (bai (bam a)) (negb (index_needed E a w));
            EvIsFile (bai (bam a)) true])
  \/ (index_fails E a w = false
      /\ exists header tr',
        decode_utf8 raw = Some header
        /\ outcome r = Returned tt
        /\ dump_output a (trace r) = Some raw
        /\ commands (trace r)
           = (index_step (bam a) (index_needed E a w) ++ body a header)%list
        /\ trace r = (tr' ++ [EvRemove (intermediate_files a) (keep_files a)])%list
        /\ others tr'
           = [EvLog (newline ++ "[extract] extracting reads from " ++ bam a);
              EvIsFile (bai (bam a)) (negb (index_needed E a w));
              EvIsFile (bai (bam a)) true]).
Proof.
unfold extract_run, call, extract_reads, index_fails, index_needed,
  header_at, indexed_world, cmd_header_dump.
rewrite run_bind. unfold and_then. cbn [run log_info outcome final trace emit].
fold (start_world E a w). set (w0 := start_world E a w).
cbv zeta.
rewrite run_bind. rewrite index_bam_run. cbv zeta. unfold and_then.
cbn [outcome final trace].
set (b1 := env_isfile E w0 (bai (bam a))).
set (res := env_run_command E (cmd_index (bam a)) _ w0).
set (w1 := if b1 then w0 else fst res).
assert (Hfail : b1 = true -> env_isfile E w1 (bai (bam a)) = true).
{ intros H. subst w1. rewrite H. exact H. }
assert (Hw1 : b1 = false -> w1 = fst res).
{ intros H. subst w1. now rewrite H. }
destruct (env_isfile E w1 (bai (bam a))) eqn:Hb2.
2:{ left. cbn [outcome trace].
    destruct b1 eqn:Hb1; [specialize (Hfail eq_refl); discriminate|].
    rewrite <- (Hw1 eq_refl), Hb2. repeat split. }
right.
assert (Hnofail : negb b1 && negb (env_isfile E (fst res) (bai (bam a))) = false).
{ destruct b1 eqn:Hb1; [reflexivity|].
  rewrite <- (Hw1 eq_refl), Hb2. reflexivity. }
cbn [run bind run_command emit trace final outcome].
set (r1 := env_run_command E _ "" w1).
set (raw := stdout (snd r1)).
unfold decode.
destruct (decode_utf8 raw) as [header|] eqn:Hdec.
2:{ left. cbn [bind run trace final outcome].
    split; [exact Hnofail|]. split; [reflexivity|]. split; [reflexivity|].
    split; [|split].
    - destruct b1; cbn [app dump_output]; unfold cmd_header_dump.
      + now rewrite list_string_eqb_refl.
      + rewrite list_string_eqb_neq by (unfold cmd_index; congruence).
        now rewrite list_string_eqb_refl.
    - rewrite !commands_app. destruct b1; reflexivity.
    - rewrite !others_app. destruct b1; reflexivity. }
right. split; [exact Hnofail|].
cbn [run bind run_command emit trace final outcome].
match goal with
| |- context [trace (run E ?p ?w)] =>
    set (w3 := w); remember (run E p w3) as rt eqn:Hrt
end.
clearbody w3.
assert (Ht : outcome rt = Returned tt
             /\ commands (trace rt)
                = (unmapped_step a header ++ alt_steps a header
                   ++ [cmd_sam_to_bam a; cmd_sort a; cmd_bamtofastq a]
                   ++ map (cmd_pigz a) (fastq_files a))%list
             /\ exists tr', trace rt
                  = (tr' ++ [EvRemove (intermediate_files a) (keep_files a)])%list
                  /\ others tr' = []
                  /\ commands tr' = commands (trace rt)).
{ subst rt. rewrite run_bind.
  unfold unmapped_step, alt_steps, alts_present, fastq_files, cmd_bamtofastq,
    cmd_region, mapped_filter, unmapped_filter, chrom_of.
  match goal with
  | |- context [for_each (alts a) ?f] => set (loop := for_each (alts a) f)
  end.
  assert (Hloop : forall wx,
             outcome (run E loop wx) = Returned tt
             /\ commands (trace (run E loop wx))
                = map (fun alt => cmd_region a (mapped_filter a) (alt ++ ":"))
                      (filter (fun alt => contains alt header) (alts a))
             /\ others (trace (run E loop wx)) = []).
  { intros wx. subst loop. unfold cmd_region, mapped_filter.
    destruct (truthy (paired a));
      exact (run_for_each (fun alt => contains alt header) _ (alts a) wx). }
  clearbody loop.
  unfold cmd_region, mapped_filter in Hloop.
  destruct (truthy (unmapped a));
    unfold and_then; cbn [run emit outcome final trace];
    rewrite run_bind; unfold and_then;
    match goal with
    | |- context [run E loop ?wx] =>
        destruct (Hloop wx) as (Ho & Hc & Hr); rewrite Ho;
        set (w4 := final (run E loop wx)); clearbody w4
    end;
    cbn [outcome final trace];
    destruct (truthy (paired a));
    cbn [run bind emit remove_files trace final outcome].
  all: split; [reflexivity|].
  all: split;
    [ rewrite !commands_app, Hc; reflexivity
    | eexists; split;
      [ first [ apply (snoc_shape _ _ [_; _; _; _; _])
              | apply (snoc_shape _ _ [_; _; _; _]) ]
      | split;
        [ rewrite !others_app, Hr; reflexivity
        | rewrite !commands_app; reflexivity ] ] ]. }
destruct Ht as (Ho & Hc & tr' & Htr & Hr' & Hc').
exists header. eexists. split; [reflexivity|]. split; [exact Ho|].
split; [|split; [|split]].
- destruct b1; cbn [app dump_output]; unfold cmd_header_dump.
  + now rewrite list_string_eqb_refl.
  + rewrite list_string_eqb_neq by (unfold cmd_index; congruence).
    now rewrite list_string_eqb_refl.
- rewrite !commands_app. cbn [commands]. rewrite Hc.
  unfold body, cmd_region, mapped_filter, cmd_header_dump.
  destruct (truthy (paired a)); destruct b1; reflexivity.
- rewrite Htr. apply (snoc_shape _ _ (_ :: _ :: _ :: tr')).
- rewrite !others_app. cbn [others]. rewrite Hr'.
  destruct b1; reflexivity.
Qed.

End PipelineFacts.

(** ** Properties of the command sequence *)

Section CommandSequence.
Import PyStr OsPath ExtractPy Pipeline.
Context {W : Type} (E : Env W).

Lemma map_tool_alt_steps (a : Args) (header : string) :
  map tool_of (alt_steps a header)
  = repeat SamtoolsView (length (alts_present a header)).
Proof.
  unfold alt_steps. induction (alts_present a header) as [|alt l IH].
  - reflexivity.
  - cbn [map length repeat]. now rewrite IH.
Qed.

Lemma map_tool_pigz (a : Args) (fqs : list string) :
  map tool_of (map (cmd_pigz a) fqs) = repeat Pigz (length fqs).
Proof.
  induction fqs as [|fq l IH]; [reflexivity|].
  cbn [map length repeat]. now rewrite IH.
Qed.

Lemma repeat_app_cons {X} (x : X) (n : nat) (l : list X) :
  (repeat x n ++ x :: l = x :: repeat x n ++ l)%list.
Proof. induction n as [|n IH]; [reflexivity|]. cbn. now rewrite IH. Qed.

(** C1: whatever the surroundings answer, the commands issued by
    [extract_reads] are, in this order: [samtools index] when the index
    is missing; then, unless [index_bam] gave up, the [samtools view]
    steps, which start with the header dump and, when the header
    decodes, go on with the header-only extraction to the SAM file, the
    chromosome 6 extraction, the unmapped extraction if any, the alt
    extractions and the SAM-to-BAM conversion; then [samtools sort],
    [bedtools bamtofastq] and the [pigz] compressions. *)
Theorem extract_reads_command_order (a : Args) (w : W) :
  let cmds := commands (trace (extract_run E a w)) in
  cmds = (index_step (bam a) (index_needed E a w)
          ++ (if index_fails E a w then []
              else [cmd_header_dump a]
                   ++ match decode_utf8 (header_at E a w) with
                      | None => []
                      | Some header =>
                          [cmd_header_only a]
                          ++ [cmd_region a (mapped_filter a) (chrom_of header)]
                          ++ unmapped_step a header
                          ++ alt_steps a header
                          ++ [cmd_sam_to_bam a]
                          ++ [cmd_sort a]
                          ++ [cmd_bamtofastq a]
                          ++ map (cmd_pigz a) (fastq_files a)
                      end))%list
  /\ map tool_of cmds
     = ((if index_needed E a w then [SamtoolsIndex] else [])
        ++ (if index_fails E a w then []
            else match decode_utf8 (header_at E a w) with
                 | None => [SamtoolsView]
                 | Some header =>
                     repeat SamtoolsView
                            (4 + length (unmapped_step a header)
                             + length (alts_present a header))
                     ++ [SamtoolsSort]
                     ++ [BedtoolsBamToFastq]
                     ++ repeat Pigz (length (fastq_files a))
                 end))%list.
Proof.
  intros cmds. subst cmds.
  destruct (extract_run_cases E a w)
    as [(Hf & _ & Hc & _)
       |[(Hf & Hdec & _ & _ & Hc & _)
        |(Hf & header & tr' & Hdec & _ & _ & Hc & _)]];
    cbv zeta in Hdec || idtac; rewrite Hf, Hc; try rewrite Hdec.
  - unfold index_fails in Hf.
    apply andb_true_iff in Hf as [Hn _]. rewrite Hn. split; reflexivity.
  - split; [reflexivity|]. rewrite map_app.
    destruct (index_needed E a w); reflexivity.
  - split; [reflexivity|].
    unfold body. rewrite !map_app, map_tool_alt_steps, map_tool_pigz.
    f_equal; [destruct (index_needed E a w); reflexivity|].
    unfold unmapped_step, cmd_bamtofastq.
    destruct (truthy (unmapped a)), (truthy (paired a)); cbn;
      now rewrite repeat_app_cons.
Qed.

(** C8: [index_bam] runs [samtools index] exactly when there is no
    [.bai] file beforehand; it ends the program with the error message
    exactly when there is still none afterwards; and when the index is
    already there it issues no command and leaves the world as it was. *)
Theorem index_bam_behaviour (bam : string) (w : W) :
  let r := run E (index_bam bam) w in
  (In ["samtools"; "index"; bam] (commands (trace r))
   <-> env_isfile E w (bam ++ ".bai") = false)
  /\ (commands (trace r) = [] \/ commands (trace r) = [["samtools"; "index"; bam]])
  /\ (outcome r = Exited "[extract] Error: unable to index bam file."
      <-> env_isfile E (final r) (bam ++ ".bai") = false)
  /\ (outcome r = Returned tt
      <-> env_isfile E (final r) (bam ++ ".bai") = true)
  /\ (env_isfile E w (bam ++ ".bai") = true
      -> commands (trace r) = [] /\ final r = w /\ outcome r = Returned tt).
Proof.
  cbv zeta. rewrite (index_bam_run E). cbv zeta. unfold bai, cmd_index, index_error.
  cbn [trace final outcome].
  destruct (env_isfile E w (bam ++ ".bai")) eqn:Hb.
  - rewrite Hb. cbn. repeat split; try tauto; try discriminate; auto.
  - destruct (env_isfile E (fst _) (bam ++ ".bai")) eqn:Hb2; cbn;
      repeat split; try tauto; try discriminate; auto.
Qed.

Lemma chrom_of_chr6 (header : string) :
  chrom_of header = "chr6" <-> occurs_in "SN:chr" header.
Proof.
  rewrite <- contains_true_iff. unfold chrom_of.
  destruct (contains "SN:chr" header); split; congruence.
Qed.

Lemma chrom_of_6 (header : string) :
  chrom_of header = "6" <-> ~ occurs_in "SN:chr" header.
Proof.
  rewrite <- contains_false_iff. unfold chrom_of.
  destruct (contains "SN:chr" header); split; congruence.
Qed.

(** A run in which a header was read ran to its end. *)
Lemma dump_header_some (a : Args) (w : W) (header : string) :
  dump_header a (trace (extract_run E a w)) = Some header ->
  index_fails E a w = false
  /\ outcome (extract_run E a w) = Returned tt
  /\ commands (trace (extract_run E a w))
     = (index_step (bam a) (index_needed E a w) ++ body a header)%list.
Proof.
  unfold dump_header. intros Hd.
  destruct (extract_run_cases E a w)
    as [(_ & _ & _ & _ & Hn)
       |[(_ & Hdec & _ & Hraw & _)
        |(Hf & header' & tr' & Hdec & Ho & Hraw & Hc & _)]];
    cbv zeta in *.
  - rewrite Hn in Hd. discriminate.
  - rewrite Hraw, Hdec in Hd. discriminate.
  - rewrite Hraw, Hdec in Hd. injection Hd as <-. auto.
Qed.

(** A run that returns read a header. *)
Lemma returned_run (a : Args) (w : W) :
  outcome (extract_run E a w) = Returned tt ->
  exists header,
    dump_header a (trace (extract_run E a w)) = Some header
    /\ index_fails E a w = false
    /\ commands (trace (extract_run E a w))
       = (index_step (bam a) (index_needed E a w) ++ body a header)%list.
Proof.
  intros Hret. unfold dump_header.
  destruct (extract_run_cases E a w)
    as [(_ & Ho & _)
       |[(_ & _ & Ho & _)
        |(Hf & header & tr' & Hdec & _ & Hraw & Hc & _)]];
    cbv zeta in *; try congruence.
  exists header. rewrite Hraw. auto.
Qed.

(** C2: for the header string that the program reads from the header
    dump (its output decoded), the region of the chromosome 6
    extraction and of the unmapped extraction that follow is [chr6]
    exactly when [SN:chr] occurs in the header, and [6] exactly when it
    does not. *)
Theorem chrom_follows_header (a : Args) (w : W) (header : string) :
  dump_header a (trace (extract_run E a w)) = Some header ->
  exists region : string,
    (region = "chr6" <-> occurs_in "SN:chr" header)
    /\ (region = "6" <-> ~ occurs_in "SN:chr" header)
    /\ commands (trace (extract_run E a w))
       = (index_step (bam a) (index_needed E a w)
          ++ [cmd_header_dump a; cmd_header_only a]
          ++ [["samtools"; "view"; ("-@" ++ threads a)%string; mapped_filter a;
               bam a; region; ">>"; hla_filtered a]]
          ++ (if truthy (unmapped a)
              then [["samtools"; "view"; ("-@" ++ threads a)%string; unmapped_filter a;
                     bam a; region; ">>"; hla_filtered a]]
              else [])
          ++ alt_steps a header
          ++ [cmd_sam_to_bam a; cmd_sort a; cmd_bamtofastq a]
          ++ map (cmd_pigz a) (fastq_files a))%list.
Proof.
  intros Hd. apply dump_header_some in Hd as (_ & _ & Hc).
  exists (chrom_of header). split; [apply chrom_of_chr6|].
  split; [apply chrom_of_6|].
  rewrite Hc. reflexivity.
Qed.


(** Membership in the commands that follow indexing. *)
Lemma In_body (a : Args) (header : string) (cmd : list string) :
  In cmd (body a header) <->
  cmd = cmd_header_dump a
  \/ cmd = cmd_header_only a
  \/ cmd = cmd_region a (mapped_filter a) (chrom_of header)
  \/ (truthy (unmapped a) = true
      /\ cmd = cmd_region a (unmapped_filter a) (chrom_of header))
  \/ (exists alt, In alt (alts a) /\ contains alt header = true
                  /\ cmd = cmd_region a (mapped_filter a) (alt ++ ":"))
  \/ cmd = cmd_sam_to_bam a
  \/ cmd = cmd_sort a
  \/ cmd = cmd_bamtofastq a
  \/ (exists fq, In fq (fastq_files a) /\ cmd = cmd_pigz a fq).
Proof.
  unfold body, unmapped_step, alt_steps, alts_present.
  rewrite !in_app_iff, !in_map_iff. cbn [In].
  setoid_rewrite filter_In.
  destruct (truthy (unmapped a)); cbn [In]; split; intros H.
  all: repeat match type of H with
              | _ \/ _ => destruct H as [H|H]
              | False => destruct H
              | exists _, _ => destruct H as (x & H)
              | _ /\ _ => destruct H as (? & H)
              end; subst; eauto 12.
  all: try discriminate.
  all: try (do 4 right; left; eexists; eauto; fail).
  all: try (do 8 right; eexists; eauto; fail).
  all: intuition eauto 10.
Qed.

Lemma In_cmds_indexed (a : Args) (w : W) (header : string) (cmd : list string) :
  commands (trace (extract_run E a w))
  = (index_step (bam a) (index_needed E a w) ++ body a header)%list ->
  In cmd (commands (trace (extract_run E a w))) ->
  cmd = cmd_index (bam a) \/ In cmd (body a header).
Proof.
  intros -> H. apply in_app_or in H as [H|H]; [|now right].
  unfold index_step in H. destruct (index_needed E a w); cbn in H;
    [destruct H as [<-|[]]; now left | destruct H].
Qed.

(** C4, for the runs that return ([index_bam] lets them through and the
    header dump decodes): a further read extraction appending to the
    filtered SAM file follows the chromosome 6 extraction exactly when
    [unmapped] is set, and its flag filter is [-f 12] when [paired] is
    set and [-f 4] when it is not. *)
Theorem unmapped_extraction_of_complete_run (a : Args) (w : W) :
  outcome (extract_run E a w) = Returned tt ->
  let cmds := commands (trace (extract_run E a w)) in
  let flt := if truthy (paired a) then "-f 12" else "-f 4" in
  ((exists region,
       In ["samtools"; "view"; "-@" ++ threads a; flt; bam a; region; ">>";
           hla_filtered a] cmds)
   <-> truthy (unmapped a) = true)
  /\ (forall f region,
        f = "-f 12" \/ f = "-f 4" ->
        In ["samtools"; "view"; "-@" ++ threads a; f; bam a; region; ">>";
            hla_filtered a] cmds ->
        truthy (unmapped a) = true /\ f = flt)
  /\ exists header before after,
      cmds = (before
              ++ [cmd_region a (mapped_filter a) (chrom_of header)]
              ++ (if truthy (unmapped a)
                  then [["samtools"; "view"; ("-@" ++ threads a)%string; flt;
                         bam a; chrom_of header; ">>"; hla_filtered a]]
                  else [])
              ++ alt_steps a header
              ++ cmd_sam_to_bam a :: after)%list.
Proof.
  intros Hret cmds flt.
  destruct (returned_run a w Hret) as (header & _ & _ & Hc).
  assert (Hshape : forall f region,
             In ["samtools"; "view"; "-@" ++ threads a; f; bam a; region; ">>";
                 hla_filtered a] cmds ->
             f = "-f 12" \/ f = "-f 4" ->
             truthy (unmapped a) = true /\ f = flt).
  { intros f region Hin Hflt.
    apply In_cmds_indexed with (header := header) in Hin; [|exact Hc].
    destruct Hin as [Hin|Hin]; [discriminate|].
    apply In_body in Hin.
    unfold cmd_header_dump, cmd_header_only, cmd_region, cmd_sam_to_bam,
      cmd_sort, cmd_bamtofastq, cmd_pigz, mapped_filter, unmapped_filter in Hin.
    subst flt.
    destruct (truthy (paired a));
      repeat match type of Hin with
             | _ \/ _ => destruct Hin as [Hin|Hin]
             | exists _, _ => destruct Hin as (? & Hin)
             | _ /\ _ => destruct Hin as (? & Hin)
             end;
      try discriminate;
      injection Hin as ?; subst; destruct Hflt; try discriminate; auto. }
  split; [|split].
  - split.
    + intros [region Hin]. apply (Hshape _ _ Hin).
      subst flt. destruct (truthy (paired a)); auto.
    + intros Hu. exists (chrom_of header). subst cmds. rewrite Hc.
      apply in_or_app. right. apply In_body.
      do 3 right. left. split; [exact Hu|].
      subst flt. unfold cmd_region, unmapped_filter.
      destruct (truthy (paired a)); reflexivity.
  - intros f region Hflt Hin. exact (Hshape _ _ Hin Hflt).
  - exists header,
      (index_step (bam a) (index_needed E a w)
       ++ [cmd_header_dump a; cmd_header_only a])%list,
      (cmd_sort a :: cmd_bamtofastq a :: map (cmd_pigz a) (fastq_files a)).
    subst cmds flt. rewrite Hc. unfold body, unmapped_step, cmd_region, unmapped_filter.
    rewrite <- !app_assoc.
    destruct (truthy (unmapped a)), (truthy (paired a)); reflexivity.
Qed.


(** C6, for the runs that return ([index_bam] lets them through and the
    header dump decodes): the last commands
    are [bedtools bamtofastq] writing FASTQ files in the output
    directory and [pigz] compressing them: [sample.extracted.1.fq] and
    [sample.extracted.2.fq] when [paired] is set, [sample.extracted.fq]
    alone when it is not; no other command runs [pigz] or
    [bedtools]. *)
Theorem fastq_outputs_of_complete_run (a : Args) (w : W) :
  outcome (extract_run E a w) = Returned tt ->
  let cmds := commands (trace (extract_run E a w)) in
  let sample := fst (splitext (basename (bam a))) in
  let sorted := temp a ++ sample ++ ".hla.sorted.bam" in
  let fq1 := outdir a ++ sample ++ ".extracted.1.fq" in
  let fq2 := outdir a ++ sample ++ ".extracted.2.fq" in
  let fq := outdir a ++ sample ++ ".extracted.fq" in
  exists before,
    cmds = (before
            ++ (if truthy (paired a)
                then [["bedtools"; "bamtofastq"; "-i"; sorted;
                       "-fq"; fq1; "-fq2"; fq2];
                      ["pigz"; "-f"; "-p"; threads a; "-S"; ".gz"; fq1];
                      ["pigz"; "-f"; "-p"; threads a; "-S"; ".gz"; fq2]]
                else [["bedtools"; "bamtofastq"; "-i"; sorted; "-fq"; fq];
                      ["pigz"; "-f"; "-p"; threads a; "-S"; ".gz"; fq]]))%list
    /\ Forall (fun c => tool_of c <> Pigz /\ tool_of c <> BedtoolsBamToFastq)
              before.
Proof.
  intros Hret cmds sample sorted fq1 fq2 fq.
  destruct (returned_run a w Hret) as (header & _ & _ & Hc).
  exists (index_step (bam a) (index_needed E a w)
          ++ [cmd_header_dump a; cmd_header_only a;
              cmd_region a (mapped_filter a) (chrom_of header)]
          ++ unmapped_step a header ++ alt_steps a header
          ++ [cmd_sam_to_bam a; cmd_sort a])%list.
  split.
  - subst cmds. rewrite Hc. unfold body, fastq_files, cmd_bamtofastq, cmd_pigz.
    rewrite <- !app_assoc. do 3 f_equal.
    destruct (truthy (paired a)); reflexivity.
  - rewrite !Forall_app. repeat split.
    + unfold index_step. destruct (index_needed E a w); repeat constructor;
        discriminate.
    + repeat constructor; discriminate.
    + unfold unmapped_step. destruct (truthy (unmapped a)); repeat constructor;
        discriminate.
    + unfold alt_steps. apply Forall_map, Forall_forall.
      intros alt _. split; discriminate.
    + repeat constructor; discriminate.
Qed.

Lemma intermediate_last_char (a : Args) (f : string) :
  In f (intermediate_files a) -> last_char f = Some "m"%char.
Proof.
  unfold intermediate_files, hla_filtered, hla_filtered_bam, hla_sorted.
  intros [<-|[<-|[<-|[]]]]; rewrite <- append_assoc;
    rewrite last_char_append by discriminate; reflexivity.
Qed.

Lemma fastq_last_char (a : Args) (fq : string) :
  In fq (fastq_files a) ->
  last_char fq = Some "q"%char /\ last_char (fq ++ ".gz") = Some "z"%char.
Proof.
  unfold fastq_files. intros H. split.
  - destruct (truthy (paired a)); cbn [In] in H;
      repeat match type of H with
             | _ \/ _ => destruct H as [<-|H]
             | False => destruct H
             end;
      rewrite <- append_assoc;
      rewrite last_char_append by discriminate; reflexivity.
  - rewrite last_char_append by discriminate. reflexivity.
Qed.

Lemma In_removals (tr : list Event) (fs : list string) (keep : pyflag) :
  In (EvRemove fs keep) tr -> In (fs, keep) (removals tr).
Proof.
  induction tr as [|[m|p b|c m o|fs' k'] tr IH];
    cbn [In removals]; intros H; try tauto;
    try (destruct H as [H|H]; [discriminate|auto]).
  destruct H as [H|H]; [injection H as -> ->; now left | right; auto].
Qed.

Lemma outcome_at (a : Args) (w : W) :
  outcome (extract_run E a w)
  = if index_fails E a w then Exited index_error
    else match decode_utf8 (header_at E a w) with
         | Some _ => Returned tt
         | None => Raised UnicodeDecodeError
         end.
Proof.
  destruct (extract_run_cases E a w)
    as [(Hf & Ho & _)
       |[(Hf & Hdec & Ho & _)
        |(Hf & header & tr' & Hdec & Ho & _)]];
    cbv zeta in *; rewrite Hf, Ho; try rewrite Hdec; reflexivity.
Qed.

Lemma completes_returned (a : Args) (w : W) :
  completes E a w = true <-> outcome (extract_run E a w) = Returned tt.
Proof.
  rewrite outcome_at. unfold completes.
  destruct (index_fails E a w), (decode_utf8 (header_at E a w));
    cbn; split; congruence.
Qed.

Lemma removals_extract_run (a : Args) (w : W) :
  removals (trace (extract_run E a w))
  = if completes E a w then [(intermediate_files a, keep_files a)]
    else [].
Proof.
  unfold completes.
  destruct (extract_run_cases E a w)
    as [(Hf & _ & _ & Ho & _)
       |[(Hf & Hdec & _ & _ & _ & Ho)
        |(Hf & header & tr' & Hdec & _ & _ & _ & Ht & Ho)]];
    cbv zeta in *; rewrite Hf; try rewrite Hdec; cbn [negb andb].
  - rewrite <- removals_others, Ho. reflexivity.
  - rewrite <- removals_others, Ho. reflexivity.
  - rewrite Ht, removals_app, <- (removals_others tr'), Ho. reflexivity.
Qed.

(** C9, for the runs that return ([index_bam] lets them through and the
    header dump decodes): [remove_files] is called once, as the last
    step, with the three intermediate files under the temp directory
    ([.hla.sam], [.hla.bam], [.hla.sorted.bam]) and the [keep_files]
    flag; no FASTQ file handed to [pigz], and no compressed file [pigz]
    makes of it, is among the files to remove. *)
Theorem removal_of_intermediate_files (a : Args) (w : W) :
  outcome (extract_run E a w) = Returned tt ->
  let r := extract_run E a w in
  let sample := fst (splitext (basename (bam a))) in
  let files := [temp a ++ sample ++ ".hla.sam";
                temp a ++ sample ++ ".hla.bam";
                temp a ++ sample ++ ".hla.sorted.bam"] in
  removals (trace r) = [(files, keep_files a)]
  /\ (exists before, trace r = (before ++ [EvRemove files (keep_files a)])%list
                     /\ removals before = [])
  /\ (forall fs keep, In (EvRemove fs keep) (trace r) ->
                      fs = files /\ keep = keep_files a)
  /\ (forall fq, In ["pigz"; "-f"; "-p"; threads a; "-S"; ".gz"; fq]
                    (commands (trace r)) ->
                 In fq (fastq_files a)
                 /\ ~ In fq files /\ ~ In (fq ++ ".gz") files)
  /\ (forall fq, In fq (fastq_files a) ->
                 In ["pigz"; "-f"; "-p"; threads a; "-S"; ".gz"; fq]
                    (commands (trace r))).
Proof.
  intros Hret r sample files.
  assert (Hrems : removals (trace r) = [(files, keep_files a)]).
  { subst r. rewrite removals_extract_run.
    apply completes_returned in Hret. rewrite Hret. reflexivity. }
  pose proof (fun fs keep => @In_removals (trace r) fs keep) as Hin.
  destruct (returned_run a w Hret) as (header & _ & _ & Hc).
  fold r in Hc.
  split; [exact Hrems|]. split; [|split; [|split]].
  - subst r.
    destruct (extract_run_cases E a w)
      as [(_ & Hex & _)
         |[(_ & _ & Hex & _)
          |(_ & header' & tr' & _ & _ & _ & _ & Ht & Ho)]];
      try congruence.
    exists tr'. split; [exact Ht|].
    rewrite <- removals_others, Ho. reflexivity.
  - intros fs keep H. apply Hin in H. rewrite Hrems in H.
    destruct H as [H|[]]. injection H as <- <-. split; reflexivity.
  - intros fq Hfq.
    assert (Hfiles : In fq (fastq_files a)).
    { apply In_cmds_indexed with (header := header) in Hfq; [|exact Hc].
      destruct Hfq as [Hfq|Hfq]; [discriminate|].
      apply In_body in Hfq.
      unfold cmd_header_dump, cmd_header_only, cmd_region, cmd_sam_to_bam,
        cmd_sort, cmd_bamtofastq, cmd_pigz in Hfq.
      destruct (truthy (paired a));
        repeat match type of Hfq with
               | _ \/ _ => destruct Hfq as [Hfq|Hfq]
               | exists _, _ => destruct Hfq as (? & Hfq)
               | _ /\ _ => destruct Hfq as (? & Hfq)
               end;
        try discriminate; injection Hfq as ->; assumption. }
    split; [exact Hfiles|].
    apply fastq_last_char in Hfiles as [Hq Hz].
    split; intros Hbad;
      apply (@intermediate_last_char a) in Hbad; congruence.
  - intros fq Hfq. rewrite Hc. apply in_or_app. right. apply In_body.
    do 8 right. exists fq. split; [exact Hfq | reflexivity].
Qed.

Lemma templates_fill (a : Args) (header : string) (needed : bool) :
  map (map (fill (threads a)))
      (templates (bam a) (outdir a) (temp a) (paired a) (unmapped a) (alts a)
                 needed false (Some header))
  = (index_step (bam a) needed ++ body a header)%list.
Proof.
  unfold templates, body, index_step, unmapped_step, alt_steps, alts_present,
    fastq_files, cmd_bamtofastq, cmd_region, mapped_filter, unmapped_filter.
  rewrite !map_app, map_map.
  destruct needed, (truthy (unmapped a)), (truthy (paired a)); reflexivity.
Qed.

Lemma templates_fill_undecoded (a : Args) (needed : bool) :
  map (map (fill (threads a)))
      (templates (bam a) (outdir a) (temp a) (paired a) (unmapped a) (alts a)
                 needed false None)
  = (index_step (bam a) needed ++ [cmd_header_dump a])%list.
Proof. destruct needed; reflexivity. Qed.

Lemma templates_thread_uses (a : Args) (header : option string)
      (needed fails : bool) :
  Forall (fun tpl =>
            thread_uses tpl
            = thread_uses_of (tool_of (map (fill (threads a)) tpl)))
         (templates (bam a) (outdir a) (temp a) (paired a) (unmapped a)
                    (alts a) needed fails header).
Proof.
  unfold templates. rewrite !Forall_app. repeat split.
  - destruct needed; repeat constructor.
  - destruct fails; repeat constructor.
  - destruct fails; [constructor|].
    destruct header as [header|]; [|constructor].
    rewrite !Forall_app. repeat split.
    + repeat constructor.
    + destruct (truthy (unmapped a)); repeat constructor.
    + apply Forall_map, Forall_forall. intros alt _. reflexivity.
    + repeat constructor.
    + destruct (truthy (paired a)); repeat constructor.
Qed.


End CommandSequence.

(** ** The two sample names *)

Section SampleNames.
Import PyStr OsPath ExtractPy Pipeline.
Local Open Scope Z_scope.

Lemma length_substring_0 (n : nat) (s : string) :
  String.length (substring 0 n s) = Nat.min n (String.length s).
Proof.
  revert s. induction n as [|n IH]; intros [|c s]; simpl; auto.
Qed.

Lemma length_slice_to (s : string) (j : Z) :
  0 <= j <= Z.of_nat (String.length s) ->
  String.length (slice_to s j) = Z.to_nat j.
Proof.
  intros Hj. unfold slice_to, slice, clip.
  replace (0 <? 0) with false by reflexivity.
  destruct (j <? 0) eqn:Hneg; [apply Z.ltb_lt in Hneg; lia|].
  rewrite Z.min_l by lia. rewrite Z.min_l by lia.
  rewrite Z.sub_0_r. cbn [Z.to_nat]. rewrite length_substring_0. lia.
Qed.

(** The first piece of [s.split(c)]. *)
Lemma split_head_cons (c a : ascii) (s : string) :
  nth 0 (split c (String a s)) EmptyString
  = if Ascii.eqb a c then EmptyString
    else String a (nth 0 (split c s) EmptyString).
Proof.
  cbn [split]. destruct (Ascii.eqb a c); [reflexivity|].
  destruct (split c s) eqn:Hs; [|reflexivity].
  destruct s as [|b s]; cbn [split] in Hs; [discriminate|].
  destruct (Ascii.eqb b c); [discriminate|].
  destruct (split c s); discriminate.
Qed.

Lemma split_head_no_sep (c : ascii) (s : string) :
  count c (nth 0 (split c s) EmptyString) = 0%nat.
Proof.
  induction s as [|a s IH]; [reflexivity|].
  rewrite split_head_cons. destruct (Ascii.eqb a c) eqn:Ha; [reflexivity|].
  cbn [count]. rewrite Ha, IH. reflexivity.
Qed.

(** [split(c)[0]] is the text before the first [c]. *)
Lemma split_head_prefix (c : ascii) (s : string) :
  (0 < count c s)%nat ->
  exists rest, s = (nth 0 (split c s) EmptyString ++ String c rest)%string.
Proof.
  induction s as [|a s IH]; cbn [count]; [lia|].
  rewrite split_head_cons. destruct (Ascii.eqb_spec a c) as [->|Hne].
  - intros _. now exists s.
  - cbn [Nat.add]. intros H. destruct (IH H) as [rest Hr].
    exists rest. cbn [String.append]. now rewrite <- Hr.
Qed.

Lemma rfind_from_range (c : ascii) (s : string) (i : Z) :
  0 <= i ->
  rfind_from c s i = -1
  \/ i <= rfind_from c s i < i + Z.of_nat (String.length s).
Proof.
  revert i. induction s as [|a s IH]; intros i Hi; cbn [rfind_from].
  - now left.
  - cbn zeta. destruct (IH (i + 1) ltac:(lia)) as [Hr|Hr].
    + rewrite Hr. cbn. destruct (Ascii.eqb a c); [right|now left].
      cbn [String.length]. lia.
    + destruct (0 <=? rfind_from c s (i + 1)) eqn:Hpos.
      * right. cbn [String.length]. lia.
      * apply Z.leb_gt in Hpos. lia.
Qed.

Lemma rfind_from_found (c : ascii) (s : string) (i : Z) :
  0 <= i -> (1 <= count c s)%nat ->
  i + Z.of_nat (String.length (nth 0 (split c s) EmptyString))
  <= rfind_from c s i.
Proof.
  revert i. induction s as [|a s IH]; intros i Hi; cbn [count]; [lia|].
  rewrite split_head_cons. cbn [rfind_from]. cbn zeta.
  destruct (Ascii.eqb a c) eqn:Ha; cbn [Nat.add String.length]; intros Hc.
  - destruct (0 <=? rfind_from c s (i + 1)) eqn:Hpos; [|lia].
    destruct (@rfind_from_range c s (i + 1) ltac:(lia)) as [Hr|Hr];
      [apply Z.leb_le in Hpos|]; lia.
  - specialize (IH (i + 1) ltac:(lia) Hc).
    destruct (0 <=? rfind_from c s (i + 1)) eqn:Hpos; [lia|].
    apply Z.leb_gt in Hpos. lia.
Qed.

Lemma rfind_from_second (c : ascii) (s : string) (i : Z) :
  0 <= i -> (2 <= count c s)%nat ->
  i + Z.of_nat (String.length (nth 0 (split c s) EmptyString))
  < rfind_from c s i.
Proof.
  revert i. induction s as [|a s IH]; intros i Hi; cbn [count]; [lia|].
  rewrite split_head_cons. cbn [rfind_from]. cbn zeta.
  destruct (Ascii.eqb a c) eqn:Ha; cbn [Nat.add String.length]; intros Hc.
  - pose proof (@rfind_from_found c s (i + 1) ltac:(lia) ltac:(lia)) as Hf.
    destruct (0 <=? rfind_from c s (i + 1)) eqn:Hpos; [lia|].
    apply Z.leb_gt in Hpos. lia.
  - specialize (IH (i + 1) ltac:(lia) Hc).
    destruct (0 <=? rfind_from c s (i + 1)) eqn:Hpos; [lia|].
    apply Z.leb_gt in Hpos. lia.
Qed.

(** [splitext] returns the path itself or the path cut at its last
    dot. *)
Lemma splitext_root (p : string) :
  fst (splitext p) = p \/ fst (splitext p) = slice_to p (rfind extsep p).
Proof.
  unfold splitext. cbv zeta.
  destruct (rfind sep p <? rfind extsep p); [|now left].
  destruct (skip_leading_dots _ _ _ _); [now right|now left].
Qed.

Lemma substring_all (s : string) : substring 0 (String.length s) s = s.
Proof. induction s as [|a s IH]; simpl; [reflexivity | now rewrite IH]. Qed.

Lemma substring_split (s : string) (k : nat) :
  (k <= String.length s)%nat ->
  s = (substring 0 k s ++ substring k (String.length s - k) s)%string.
Proof.
  revert s. induction k as [|k IH]; intros s Hk.
  - rewrite Nat.sub_0_r, substring_all. now destruct s.
  - destruct s as [|a s]; cbn [String.length] in Hk; [lia|].
    cbn [substring String.append String.length Nat.sub].
    f_equal. apply IH. lia.
Qed.

Lemma rfind_from_none (c : ascii) (s : string) (i : Z) :
  0 <= i -> rfind_from c s i = -1 -> count c s = 0%nat.
Proof.
  revert i. induction s as [|a s IH]; intros i Hi; [reflexivity|].
  cbn [rfind_from count]. cbn zeta.
  destruct (@rfind_from_range c s (i + 1) ltac:(lia)) as [Hr|Hr].
  - rewrite Hr. cbn. destruct (Ascii.eqb a c); [lia|].
    intros _. cbn. apply (IH (i + 1)); [lia | exact Hr].
  - destruct (0 <=? rfind_from c s (i + 1)) eqn:Hpos; [lia|].
    apply Z.leb_gt in Hpos. lia.
Qed.

(** From the position [rfind] returns onwards there is exactly one [c]. *)
Lemma rfind_from_last (c : ascii) (s : string) (i : Z) (k : nat) :
  0 <= i -> rfind_from c s i = i + Z.of_nat k ->
  count c (substring k (String.length s - k) s) = 1%nat.
Proof.
  revert i k. induction s as [|a s IH]; intros i k Hi; cbn [rfind_from].
  - lia.
  - cbn zeta.
    destruct (@rfind_from_range c s (i + 1) ltac:(lia)) as [Hr|Hr].
    + rewrite Hr. cbn [Z.leb Z.compare].
      destruct (Ascii.eqb a c) eqn:Ha; [|lia].
      intros Hk. assert (k = 0%nat) by lia. subst k.
      rewrite Nat.sub_0_r, substring_all. cbn [count]. rewrite Ha.
      rewrite (@rfind_from_none c s (i + 1)); [reflexivity | lia | exact Hr].
    + destruct (0 <=? rfind_from c s (i + 1)) eqn:Hpos;
        [|apply Z.leb_gt in Hpos; lia].
      intros Hk. destruct k as [|k]; [lia|].
      cbn [substring String.length Nat.sub].
      apply (IH (i + 1)); lia.
Qed.

(** [splitext] cuts the path in two, and the extension holds at most
    one dot. *)
Lemma splitext_cut (p : string) :
  p = (fst (splitext p) ++ snd (splitext p))%string
  /\ (count extsep (snd (splitext p)) <= 1)%nat.
Proof.
  assert (Hnone : p = (p ++ slice_to p 0)%string
                  /\ (count extsep (slice_to p 0) <= 1)%nat).
  { unfold slice_to, slice, clip. cbn [Z.ltb Z.compare].
    rewrite Z.min_l by lia. cbn [Z.sub Z.to_nat Z.opp Z.add].
    replace (substring 0 0 p) with EmptyString by now destruct p.
    rewrite append_nil_r. cbn. auto. }
  unfold splitext. cbv zeta.
  destruct (rfind sep p <? rfind extsep p) eqn:Hlt; [|exact Hnone].
  destruct (skip_leading_dots _ _ _ _); [|exact Hnone].
  cbn [fst snd]. apply Z.ltb_lt in Hlt.
  destruct (@rfind_from_range sep p 0 ltac:(lia)) as [Hs|Hs];
    destruct (@rfind_from_range extsep p 0 ltac:(lia)) as [Hd|Hd];
    unfold rfind in *; try lia.
  all: set (d := rfind_from extsep p 0) in *.
  all: assert (Hto : slice_to p d = substring 0 (Z.to_nat d) p)
      by (unfold slice_to, slice, clip; cbn [Z.ltb Z.compare];
          destruct (d <? 0) eqn:Hneg; [apply Z.ltb_lt in Hneg; lia|];
          rewrite !Z.min_l by lia; now rewrite Z.sub_0_r).
  all: assert (Hfrom : slice_from p d
                       = substring (Z.to_nat d)
                                   (String.length p - Z.to_nat d) p)
      by (unfold slice_from, slice, clip;
          destruct (d <? 0) eqn:Hneg; [apply Z.ltb_lt in Hneg; lia|];
          destruct (Z.of_nat (String.length p) <? 0) eqn:Hneg2;
            [apply Z.ltb_lt in Hneg2; lia|];
          rewrite Z.min_l by lia; rewrite Z.min_id;
          f_equal; lia).
  all: rewrite Hto, Hfrom; split; [apply substring_split; lia|].
  all: rewrite (@rfind_from_last extsep p 0 (Z.to_nat d)); [lia | lia |].
  all: subst d; lia.
Qed.

Lemma sample_longer_than_main_sample (p : string) :
  (1 < count "."%char p)%nat ->
  (String.length (nth 0 (split "."%char p) EmptyString)
   < String.length (fst (splitext p)))%nat.
Proof.
  intros Hc.
  pose proof (@rfind_from_second "."%char p 0 ltac:(lia) ltac:(lia)) as Hlow.
  destruct (@rfind_from_range "."%char p 0 ltac:(lia)) as [Hr|Hr]; [lia|].
  destruct (splitext_root p) as [->| ->].
  - lia.
  - unfold extsep, rfind. rewrite length_slice_to by lia. lia.
Qed.

(** C10: when the basename of the BAM path has more than one dot, the
    sample name of [extract_reads] (the basename without its last
    extension, from which the temp-file and output-file names are
    built) differs from the sample name of the main block (the
    basename up to its first dot, which is logged and names the default
    log file): the latter is strictly shorter.  What [extract_reads]
    strips holds at most one dot; what the main block keeps holds
    none. *)
Theorem sample_names_differ (a : Args) :
  (1 < count "."%char (basename (bam a)))%nat ->
  sample a <> main_sample (bam a)
  /\ (String.length (main_sample (bam a)) < String.length (sample a))%nat
  /\ count "."%char (main_sample (bam a)) = 0%nat
  /\ (exists rest,
        basename (bam a) = (main_sample (bam a) ++ "." ++ rest)%string)
  /\ (exists ext,
        basename (bam a) = (sample a ++ ext)%string
        /\ (count "."%char ext <= 1)%nat)
  /\ main_log_file None (outdir a) (bam a)
     = (outdir a ++ main_sample (bam a) ++ ".extract.log")%string
  /\ intermediate_files a
     = [(temp a ++ sample a ++ ".hla.sam")%string;
        (temp a ++ sample a ++ ".hla.bam")%string;
        (temp a ++ sample a ++ ".hla.sorted.bam")%string].
Proof.
  intros Hc. unfold sample, main_sample.
  pose proof (@sample_longer_than_main_sample _ Hc) as Hlen.
  split; [|split; [|split; [|split; [|split; [|split]]]]].
  - intros Heq. rewrite Heq in Hlen. lia.
  - exact Hlen.
  - apply split_head_no_sep.
  - apply split_head_prefix. lia.
  - exists (snd (splitext (basename (bam a)))). apply splitext_cut.
  - reflexivity.
  - reflexivity.
Qed.

End SampleNames.

(** ** The program at work on the sample BAM file *)

Section Samples.
Import PyStr OsPath ExtractPy Pipeline.

(** A paired-end run with unmapped reads: eleven commands. *)
Example sample_run_commands :
  commands (trace (extract_run Toy.env sample_args Toy.w_ok))
  = [["samtools"; "index"; "/data/NA12878.sorted.bam"];
     ["samtools"; "view"; "-@4"; "-H"; "/data/NA12878.sorted.bam"];
     ["samtools"; "view"; "-H"; "-@4"; "/data/NA12878.sorted.bam"; "-o";
      "/tmp/NA12878.sorted.hla.sam"];
     ["samtools"; "view"; "-@4"; "-f 2"; "/data/NA12878.sorted.bam"; "chr6";
      ">>"; "/tmp/NA12878.sorted.hla.sam"];
     ["samtools"; "view"; "-@4"; "-f 12"; "/data/NA12878.sorted.bam"; "chr6";
      ">>"; "/tmp/NA12878.sorted.hla.sam"];
     ["samtools"; "view"; "-@4"; "-f 2"; "/data/NA12878.sorted.bam";
      "chr6_GL000250v2_alt:"; ">>"; "/tmp/NA12878.sorted.hla.sam"];
     ["samtools"; "view"; "-Sb"; "-@4"; "/tmp/NA12878.sorted.hla.sam"; ">";
      "/tmp/NA12878.sorted.hla.bam"];
     ["samtools"; "sort"; "-n"; "-@4"; "/tmp/NA12878.sorted.hla.bam"; "-o";
      "/tmp/NA12878.sorted.hla.sorted.bam"];
     ["bedtools"; "bamtofastq"; "-i"; "/tmp/NA12878.sorted.hla.sorted.bam";
      "-fq"; "out/NA12878.sorted.extracted.1.fq";
      "-fq2"; "out/NA12878.sorted.extracted.2.fq"];
     ["pigz"; "-f"; "-p"; "4"; "-S"; ".gz"; "out/NA12878.sorted.extracted.1.fq"];
     ["pigz"; "-f"; "-p"; "4"; "-S"; ".gz"; "out/NA12878.sorted.extracted.2.fq"]].
Proof. reflexivity. Qed.

(** A single-end run on a BAM file that is already indexed. *)
Example single_run_commands :
  commands (trace (extract_run Toy.env single_args Toy.w_indexed))
  = [["samtools"; "view"; "-@4"; "-H"; "/data/NA12878.sorted.bam"];
     ["samtools"; "view"; "-H"; "-@4"; "/data/NA12878.sorted.bam"; "-o";
      "/tmp/NA12878.sorted.hla.sam"];
     ["samtools"; "view"; "-@4"; "-F 4"; "/data/NA12878.sorted.bam"; "chr6";
      ">>"; "/tmp/NA12878.sorted.hla.sam"];
     ["samtools"; "view"; "-@4"; "-F 4"; "/data/NA12878.sorted.bam";
      "chr6_GL000250v2_alt:"; ">>"; "/tmp/NA12878.sorted.hla.sam"];
     ["samtools"; "view"; "-Sb"; "-@4"; "/tmp/NA12878.sorted.hla.sam"; ">";
      "/tmp/NA12878.sorted.hla.bam"];
     ["samtools"; "sort"; "-n"; "-@4"; "/tmp/NA12878.sorted.hla.bam"; "-o";
      "/tmp/NA12878.sorted.hla.sorted.bam"];
     ["bedtools"; "bamtofastq"; "-i"; "/tmp/NA12878.sorted.hla.sorted.bam";
      "-fq"; "out/NA12878.sorted.extracted.fq"];
     ["pigz"; "-f"; "-p"; "4"; "-S"; ".gz"; "out/NA12878.sorted.extracted.fq"]].
Proof. reflexivity. Qed.

(** A BAM file that cannot be indexed: the run stops in [index_bam]. *)
Example broken_run :
  commands (trace (extract_run Toy.env sample_args Toy.w_broken))
  = [["samtools"; "index"; "/data/NA12878.sorted.bam"]]
  /\ outcome (extract_run Toy.env sample_args Toy.w_broken)
     = Exited "[extract] Error: unable to index bam file."
  /\ index_fails Toy.env sample_args Toy.w_broken = true.
Proof. repeat split. Qed.

(** A header that is not UTF-8: the run stops after the header dump
    with [UnicodeDecodeError], although the BAM file was indexed. *)
Example latin1_run :
  commands (trace (extract_run Toy.env sample_args Toy.w_latin1))
  = [["samtools"; "index"; "/data/NA12878.sorted.bam"];
     ["samtools"; "view"; "-@4"; "-H"; "/data/NA12878.sorted.bam"]]
  /\ outcome (extract_run Toy.env sample_args Toy.w_latin1)
     = Raised UnicodeDecodeError
  /\ removals (trace (extract_run Toy.env sample_args Toy.w_latin1)) = []
  /\ index_fails Toy.env sample_args Toy.w_latin1 = false.
Proof. repeat split. Qed.

Example decode_samples :
  decode_utf8 "SN:chr6" = Some "SN:chr6"
  /\ decode_utf8 (String "195"%char (String "169"%char ""))
     = Some (String "195"%char (String "169"%char ""))
  /\ decode_utf8 (String "233"%char " ") = None
  /\ decode_utf8 (String "195"%char "") = None
  /\ decode_utf8 (String "192"%char (String "128"%char "")) = None
  /\ decode_utf8 (String "237"%char (String "160"%char (String "128"%char "")))
     = None
  /\ decode_utf8 (String "244"%char (String "144"%char (String "128"%char
                   (String "128"%char "")))) = None.
Proof. repeat split. Qed.

Example sample_names :
  sample sample_args = "NA12878.sorted"
  /\ main_sample (bam sample_args) = "NA12878"
  /\ main_log_file None "out/" (bam sample_args) = "out/NA12878.extract.log".
Proof. repeat split. Qed.

Example splitext_samples :
  splitext "c.tar.gz" = ("c.tar", ".gz")
  /\ splitext ".bashrc" = (".bashrc", "")
  /\ splitext "..a.b" = ("..a", ".b")
  /\ splitext "a.b/c" = ("a.b/c", "")
  /\ basename "/a/b/c.x" = "c.x"
  /\ basename "a/" = "".
Proof. repeat split. Qed.

Lemma chrom_follows_header_witness :
  dump_header sample_args (trace (extract_run Toy.env sample_args Toy.w_ok))
  = Some Toy.sample_header
  /\ exists region : string,
      (region = "chr6" <-> occurs_in "SN:chr" Toy.sample_header)
      /\ nth_error (commands (trace (extract_run Toy.env sample_args Toy.w_ok))) 3
         = Some ["samtools"; "view"; "-@4"; "-f 2"; "/data/NA12878.sorted.bam";
                 region; ">>"; "/tmp/NA12878.sorted.hla.sam"].
Proof.
  split; [reflexivity|].
  destruct (@chrom_follows_header _ Toy.env sample_args Toy.w_ok
                                  Toy.sample_header eq_refl)
    as (region & H1 & _ & H3).
  exists region. split; [exact H1|]. rewrite H3. reflexivity.
Defined.


Lemma unmapped_extraction_of_complete_run_witness :
  outcome (extract_run Toy.env sample_args Toy.w_ok) = Returned tt
  /\ ((exists region,
          In ["samtools"; "view"; "-@" ++ threads sample_args; "-f 12";
              bam sample_args; region; ">>"; hla_filtered sample_args]
             (commands (trace (extract_run Toy.env sample_args Toy.w_ok))))
      <-> truthy (unmapped sample_args) = true).
Proof.
  split; [reflexivity|].
  exact (proj1 (@unmapped_extraction_of_complete_run _ Toy.env sample_args
                                                  Toy.w_ok eq_refl)).
Defined.

(** On the BAM file that cannot be indexed, [unmapped] is set and no
    read extraction is issued. *)
Lemma unmapped_extraction_counterexample :
  ~ ((exists region,
         In ["samtools"; "view"; "-@" ++ threads sample_args;
             if truthy (paired sample_args) then "-f 12" else "-f 4";
             bam sample_args; region; ">>"; hla_filtered sample_args]
            (commands (trace (extract_run Toy.env sample_args Toy.w_broken))))
     <-> truthy (unmapped sample_args) = true).
Proof.
  intros [_ H]. destruct (H eq_refl) as [region Hin].
  vm_compute in Hin. destruct Hin as [Hin|[]]. discriminate.
Qed.


Lemma fastq_outputs_of_complete_run_witness :
  outcome (extract_run Toy.env sample_args Toy.w_ok) = Returned tt
  /\ exists before,
      commands (trace (extract_run Toy.env sample_args Toy.w_ok))
      = (before
         ++ [["bedtools"; "bamtofastq"; "-i";
              "/tmp/NA12878.sorted.hla.sorted.bam";
              "-fq"; "out/NA12878.sorted.extracted.1.fq";
              "-fq2"; "out/NA12878.sorted.extracted.2.fq"];
             ["pigz"; "-f"; "-p"; "4"; "-S"; ".gz";
              "out/NA12878.sorted.extracted.1.fq"];
             ["pigz"; "-f"; "-p"; "4"; "-S"; ".gz";
              "out/NA12878.sorted.extracted.2.fq"]])%list.
Proof.
  split; [reflexivity|].
  destruct (@fastq_outputs_of_complete_run _ Toy.env sample_args Toy.w_ok eq_refl)
    as (before & H & _).
  exists before. exact H.
Defined.

(** On the BAM file that cannot be indexed, [pigz] is never run. *)
Lemma fastq_outputs_counterexample :
  ~ ((truthy (paired sample_args) = true ->
      In ["pigz"; "-f"; "-p"; threads sample_args; "-S"; ".gz";
          outdir sample_args ++ sample sample_args ++ ".extracted.1.fq"]
         (commands (trace (extract_run Toy.env sample_args Toy.w_broken)))
      /\ In ["pigz"; "-f"; "-p"; threads sample_args; "-S"; ".gz";
             outdir sample_args ++ sample sample_args ++ ".extracted.2.fq"]
            (commands (trace (extract_run Toy.env sample_args Toy.w_broken))))
     /\ (truthy (paired sample_args) = false ->
         In ["pigz"; "-f"; "-p"; threads sample_args; "-S"; ".gz";
             outdir sample_args ++ sample sample_args ++ ".extracted.fq"]
            (commands (trace (extract_run Toy.env sample_args Toy.w_broken))))).
Proof.
  intros [H _]. destruct (H eq_refl) as [Hin _].
  vm_compute in Hin. destruct Hin as [Hin|[]]. discriminate.
Qed.

Lemma removal_of_intermediate_files_witness :
  outcome (extract_run Toy.env sample_args Toy.w_ok) = Returned tt
  /\ removals (trace (extract_run Toy.env sample_args Toy.w_ok))
     = [(["/tmp/NA12878.sorted.hla.sam"; "/tmp/NA12878.sorted.hla.bam";
          "/tmp/NA12878.sorted.hla.sorted.bam"], 0)].
Proof.
  split; [reflexivity|].
  exact (proj1 (@removal_of_intermediate_files _ Toy.env sample_args
                                               Toy.w_ok eq_refl)).
Defined.

(** On the BAM file that cannot be indexed, [remove_files] is never
    called. *)
Lemma removal_of_intermediate_files_counterexample :
  ~ (exists fs keep,
        In (EvRemove fs keep)
           (trace (extract_run Toy.env sample_args Toy.w_broken))).
Proof.
  intros (fs & keep & Hin). vm_compute in Hin.
  repeat destruct Hin as [Hin|Hin]; try discriminate; exact Hin.
Qed.

Lemma sample_names_differ_witness :
  1 < count "."%char (basename (bam sample_args))
  /\ sample sample_args <> main_sample (bam sample_args).
Proof.
  assert (H : 1 < count "."%char (basename (bam sample_args)))
    by (vm_compute; lia).
  split; [exact H|].
  exact (proj1 (@sample_names_differ sample_args H)).
Defined.

End Samples.

(** ** Further properties of [index_bam] and [extract_reads] *)

Section Runs.
Import PyStr OsPath ExtractPy Pipeline.
Context {W : Type} (E : Env W).

(** X1: [index_bam] is idempotent: once it has returned, running it again
    issues no command, changes nothing and returns. *)
Theorem index_bam_idempotent (bam : string) (w : W) :
  outcome (run E (index_bam bam) w) = Returned tt ->
  let w' := final (run E (index_bam bam) w) in
  commands (trace (run E (index_bam bam) w')) = []
  /\ final (run E (index_bam bam) w') = w'
  /\ outcome (run E (index_bam bam) w') = Returned tt.
Proof.
  intros Hret w'.
  assert (Hbai : env_isfile E w' (bai bam) = true).
  { subst w'. rewrite (index_bam_run E) in *. cbv zeta in *.
    cbn [outcome final] in *.
    destruct (env_isfile E (if env_isfile E w (bai bam) then w else _)
                         (bai bam)); [reflexivity | discriminate]. }
  rewrite (index_bam_run E bam w'). cbv zeta. rewrite Hbai.
  cbn [trace final outcome]. rewrite Hbai. repeat split.
Qed.

Lemma index_fails_world (a : Args) (w : W) :
  index_fails E a w
  = negb (env_isfile E (indexed_world E a w) (bai (bam a))).
Proof.
  unfold index_fails, index_needed, indexed_world.
  rewrite (index_bam_run E). cbv zeta. cbn [final].
  destruct (env_isfile E (start_world E a w) (bai (bam a))) eqn:Hb.
  - rewrite Hb. reflexivity.
  - reflexivity.
Qed.

(** X2: [extract_reads] ends in exactly one of three ways.  It exits
    with the index error when there is no [.bai] file once [index_bam]
    has run; it raises [UnicodeDecodeError] when there is one and what
    the header dump prints is not UTF-8; it returns otherwise.  When it
    exits it has issued [samtools index] and nothing else; when it
    raises, the header dump is its last command; in both cases it has
    removed nothing. *)
Theorem extract_reads_outcome (a : Args) (w : W) :
  let r := extract_run E a w in
  let indexed := env_isfile E (indexed_world E a w) (bam a ++ ".bai") in
  let raw := header_at E a w in
  (outcome r = Exited "[extract] Error: unable to index bam file."
   <-> indexed = false)
  /\ (outcome r = Raised UnicodeDecodeError
      <-> indexed = true /\ decode_utf8 raw = None)
  /\ (outcome r = Returned tt
      <-> indexed = true /\ exists header, decode_utf8 raw = Some header)
  /\ (indexed = false ->
      commands (trace r) = [["samtools"; "index"; bam a]]
      /\ removals (trace r) = [])
  /\ (indexed = true -> decode_utf8 raw = None ->
      (exists before,
          commands (trace r)
          = (before ++ [["samtools"; "view"; ("-@" ++ threads a)%string;
                         "-H"; bam a]])%list)
      /\ removals (trace r) = []).
Proof.
  intros r indexed raw. subst r.
  pose proof (index_fails_world a w) as Hw. unfold bai in Hw.
  fold indexed in Hw.
  pose proof (removals_extract_run E a w) as Hrem. unfold completes in Hrem.
  fold raw in Hrem.
  destruct (extract_run_cases E a w)
    as [(Hf & Ho & Hc & _)
       |[(Hf & Hdec & Ho & _ & Hc & _)
        |(Hf & header & tr' & Hdec & Ho & _)]];
    cbv zeta in *; fold raw in Hdec || idtac;
    rewrite Hf in Hw, Hrem; rewrite Ho; destruct indexed; try discriminate.
  - repeat split; try discriminate; try congruence; auto.
    + intros [? _]; discriminate.
    + intros [? _]; discriminate.
  - rewrite Hdec in Hrem. cbn in Hrem.
    repeat split; try discriminate; try congruence; auto.
    + intros [_ [h Hh]]. rewrite Hdec in Hh. discriminate.
    + exists (index_step (bam a) (index_needed E a w)). exact Hc.
  - repeat split; try discriminate; try congruence; eauto.
    + intros [_ Hn]. rewrite Hdec in Hn. discriminate.
Qed.

(** The bytes found in the trace are those printed in the world that
    [index_bam] leaves. *)
Lemma dump_output_at (a : Args) (w : W) :
  index_fails E a w = false ->
  dump_output a (trace (extract_run E a w)) = Some (header_at E a w).
Proof.
  intros Hf.
  destruct (extract_run_cases E a w)
    as [(Hf' & _)
       |[(_ & _ & _ & Hraw & _)
        |(_ & header & tr' & _ & _ & Hraw & _)]];
    cbv zeta in *; [congruence | exact Hraw | exact Hraw].
Qed.

Lemma commands_at (a : Args) (w : W) :
  commands (trace (extract_run E a w))
  = if index_fails E a w then [cmd_index (bam a)]
    else (index_step (bam a) (index_needed E a w)
          ++ match decode_utf8 (header_at E a w) with
             | Some header => body a header
             | None => [cmd_header_dump a]
             end)%list.
Proof.
  destruct (extract_run_cases E a w)
    as [(Hf & _ & Hc & _)
       |[(Hf & Hdec & _ & _ & Hc & _)
        |(Hf & header & tr' & Hdec & _ & _ & Hc & _)]];
    cbv zeta in *; rewrite Hf, ?Hdec; exact Hc.
Qed.

Lemma same_call_body (a1 a2 : Args) (header : string) :
  same_call a1 a2 -> body a1 header = body a2 header.
Proof.
  intros (Hb & Ho & Ht & Hth & Ha & Hp & Hu).
  unfold body, unmapped_step, alt_steps, alts_present, fastq_files,
    cmd_header_dump, cmd_header_only, cmd_region, cmd_sam_to_bam, cmd_sort,
    cmd_bamtofastq, cmd_pigz, mapped_filter, unmapped_filter,
    hla_filtered, hla_filtered_bam, hla_sorted, sample.
  rewrite Hb, Ho, Ht, Hth, Ha, Hp, Hu. reflexivity.
Qed.

(** X3: neither [keep_files] nor the number of times [--paired] or
    [--unmapped] was given changes what is run: two such calls issue
    the same commands, end the same way and name the same files to
    remove; only the flag handed to [remove_files] follows
    [keep_files]. *)
Theorem same_call_same_commands (a1 a2 : Args) (w : W) :
  same_call a1 a2 ->
  commands (trace (extract_run E a1 w)) = commands (trace (extract_run E a2 w))
  /\ outcome (extract_run E a1 w) = outcome (extract_run E a2 w)
  /\ map fst (removals (trace (extract_run E a1 w)))
     = map fst (removals (trace (extract_run E a2 w)))
  /\ Forall (fun x => snd x = keep_files a1)
            (removals (trace (extract_run E a1 w)))
  /\ Forall (fun x => snd x = keep_files a2)
            (removals (trace (extract_run E a2 w))).
Proof.
  intros Hsame.
  assert (Hbody : forall header, body a1 header = body a2 header)
    by (intros header; exact (same_call_body header Hsame)).
  destruct Hsame as (Hb & Ho & Ht & Hth & Ha & Hp & Hu).
  assert (Hstart : start_world E a1 w = start_world E a2 w)
    by (unfold start_world; now rewrite Hb).
  assert (Hneed : index_needed E a1 w = index_needed E a2 w)
    by (unfold index_needed; now rewrite Hstart, Hb).
  assert (Hfail : index_fails E a1 w = index_fails E a2 w)
    by (unfold index_fails; now rewrite Hneed, Hstart, Hb).
  assert (Hhead : header_at E a1 w = header_at E a2 w)
    by (unfold header_at, indexed_world, cmd_header_dump;
        now rewrite Hstart, Hb, Hth).
  assert (Hdump : cmd_header_dump a1 = cmd_header_dump a2)
    by (unfold cmd_header_dump; now rewrite Hb, Hth).
  assert (Hfiles : intermediate_files a1 = intermediate_files a2)
    by (unfold intermediate_files, hla_filtered, hla_filtered_bam,
          hla_sorted, sample; now rewrite Hb, Ht).
  assert (Hcompl : completes E a1 w = completes E a2 w)
    by (unfold completes; now rewrite Hfail, Hhead).
  split; [|split; [|split; [|split]]].
  - rewrite !commands_at, Hfail, Hneed, Hhead, Hdump, Hb.
    destruct (decode_utf8 (header_at E a2 w)); [rewrite Hbody|]; reflexivity.
  - rewrite !outcome_at, Hfail, Hhead. reflexivity.
  - rewrite !removals_extract_run, Hcompl, Hfiles.
    destruct (completes E a2 w); reflexivity.
  - rewrite removals_extract_run.
    destruct (completes E a1 w); repeat constructor.
  - rewrite removals_extract_run.
    destruct (completes E a2 w); repeat constructor.
Qed.

Lemma decode_ascii (s : string) :
  all_ascii s = true -> decode_utf8 s = Some s.
Proof.
  intros H. unfold decode_utf8.
  replace (utf8_valid s) with true; [reflexivity|]. symmetry.
  induction s as [|b s IH]; [reflexivity|].
  cbn [all_ascii] in H. apply andb_true_iff in H as [Hb Hs].
  cbn [utf8_valid]. rewrite Hb. exact (IH Hs).
Qed.

(** X12: a header dump in plain ASCII always decodes: when the index is
    there once [index_bam] has run and every byte the header dump
    prints is below 128, [extract_reads] returns, and the header it
    works with is the output of the header dump as it is. *)
Theorem ascii_header_run_returns (a : Args) (w : W) :
  env_isfile E (indexed_world E a w) (bam a ++ ".bai") = true ->
  all_ascii (header_at E a w) = true ->
  outcome (extract_run E a w) = Returned tt
  /\ dump_header a (trace (extract_run E a w)) = Some (header_at E a w).
Proof.
  intros Hidx Hascii. apply decode_ascii in Hascii.
  pose proof (index_fails_world a w) as Hw. unfold bai in Hw.
  rewrite Hidx in Hw. cbn in Hw.
  split.
  - rewrite outcome_at, Hw, Hascii. reflexivity.
  - unfold dump_header. rewrite (dump_output_at a w Hw). exact Hascii.
Qed.

End Runs.

(** ** Further properties of the file names *)

Section FileNames.
Import PyStr OsPath ExtractPy Pipeline.
Local Open Scope Z_scope.

Lemma count_append (c : ascii) (s t : string) :
  count c (s ++ t) = (count c s + count c t)%nat.
Proof.
  induction s as [|a s IH]; [reflexivity|].
  cbn [String.append count]. rewrite IH. lia.
Qed.

Lemma rfind_from_absent (c : ascii) (s : string) (i : Z) :
  count c s = 0%nat -> rfind_from c s i = -1.
Proof.
  revert i. induction s as [|a s IH]; intros i; [reflexivity|].
  cbn [count rfind_from]. cbn zeta.
  destruct (Ascii.eqb a c); [discriminate|]. cbn [Nat.add]. intros H.
  rewrite (IH (i + 1) H). reflexivity.
Qed.

Lemma rfind_from_append_sep (c : ascii) (s n : string) (i : Z) :
  0 <= i -> count c n = 0%nat ->
  rfind_from c (s ++ String c n) i = i + Z.of_nat (String.length s).
Proof.
  intros Hi Hn. revert i Hi. induction s as [|a s IH]; intros i Hi.
  - cbn [String.append rfind_from String.length]. cbn zeta.
    rewrite (@rfind_from_absent c n (i + 1) Hn). cbn. rewrite Ascii.eqb_refl. lia.
  - cbn [String.append rfind_from String.length]. cbn zeta.
    rewrite (IH (i + 1)) by lia.
    destruct (0 <=? i + 1 + Z.of_nat (String.length s)) eqn:Hpos; [lia|].
    apply Z.leb_gt in Hpos. lia.
Qed.

Lemma substring_skip (s t : string) (k : nat) :
  substring (String.length s) k (s ++ t) = substring 0 k t.
Proof. induction s as [|a s IH]; [reflexivity | exact IH]. Qed.

Lemma substring_prefix (s t : string) :
  substring 0 (String.length s) (s ++ t) = s.
Proof.
  induction s as [|a s IH]; cbn [String.append String.length substring].
  - now destruct t.
  - now rewrite IH.
Qed.

Lemma slice_from_nat (p : string) (k : nat) :
  (k <= String.length p)%nat ->
  slice_from p (Z.of_nat k) = substring k (String.length p - k) p.
Proof.
  intros Hk. unfold slice_from, slice, clip.
  destruct (Z.of_nat k <? 0) eqn:H1; [apply Z.ltb_lt in H1; lia|].
  destruct (Z.of_nat (String.length p) <? 0) eqn:H2;
    [apply Z.ltb_lt in H2; lia|].
  rewrite Z.min_l by lia. rewrite Z.min_id. f_equal; lia.
Qed.

(** The basename of [dir/name] is [name]. *)
Lemma basename_join (dir name : string) :
  count sep name = 0%nat -> basename (dir ++ "/" ++ name) = name.
Proof.
  intros Hn. unfold basename, rfind. cbn [String.append].
  change (String "/" name) with (String sep name).
  rewrite rfind_from_append_sep by (lia || assumption).
  replace (0 + Z.of_nat (String.length dir) + 1)
    with (Z.of_nat (S (String.length dir))) by lia.
  rewrite slice_from_nat
    by (rewrite length_append; cbn [String.length]; lia).
  rewrite length_append. cbn [String.length].
  replace (String.length dir + S (String.length name) - S (String.length dir))%nat
    with (String.length name) by lia.
  replace (dir ++ String sep name)%string
    with ((dir ++ String sep EmptyString) ++ name)%string
    by (rewrite append_assoc; reflexivity).
  replace (S (String.length dir))
    with (String.length (dir ++ String sep EmptyString))
    by (rewrite length_append; cbn [String.length]; lia).
  rewrite substring_skip. apply substring_all.
Qed.

Lemma rfind_from_after (c : ascii) (s : string) (i : Z) (k : nat) :
  0 <= i -> rfind_from c s i = i + Z.of_nat k ->
  count c (substring (S k) (String.length s - S k) s) = 0%nat.
Proof.
  revert i k. induction s as [|a s IH]; intros i k Hi; cbn [rfind_from].
  - lia.
  - cbn zeta.
    destruct (@rfind_from_range c s (i + 1) ltac:(lia)) as [Hr|Hr].
    + rewrite Hr. cbn [Z.leb Z.compare].
      destruct (Ascii.eqb a c) eqn:Ha; [|lia].
      intros Hk. assert (k = 0%nat) by lia. subst k.
      cbn [substring String.length Nat.sub]. rewrite Nat.sub_0_r, substring_all.
      apply (@rfind_from_none c s (i + 1)); [lia | exact Hr].
    + destruct (0 <=? rfind_from c s (i + 1)) eqn:Hpos;
        [|apply Z.leb_gt in Hpos; lia].
      intros Hk. destruct k as [|k]; [lia|].
      cbn [substring String.length Nat.sub].
      apply (IH (i + 1)); lia.
Qed.

(** A basename holds no path separator. *)
Lemma basename_no_sep (p : string) : count sep (basename p) = 0%nat.
Proof.
  unfold basename, rfind.
  destruct (@rfind_from_range sep p 0 ltac:(lia)) as [Hr|Hr].
  - rewrite Hr. change (-1 + 1) with (Z.of_nat 0).
    rewrite (@slice_from_nat p 0%nat) by lia.
    rewrite Nat.sub_0_r, substring_all.
    apply (@rfind_from_none sep p 0); [lia | exact Hr].
  - set (r := rfind_from sep p 0) in *.
    replace (r + 1) with (Z.of_nat (S (Z.to_nat r))) by lia.
    rewrite slice_from_nat by lia.
    apply (@rfind_from_after sep p 0 (Z.to_nat r)); lia.
Qed.

Lemma count_substring_le (c : ascii) (s : string) (n m : nat) :
  (count c (substring n m s) <= count c s)%nat.
Proof.
  revert n m. induction s as [|a s IH]; intros n m.
  - destruct n, m; cbn; lia.
  - destruct n as [|n].
    + destruct m as [|m]; cbn [substring count]; [lia|].
      specialize (IH 0%nat m). lia.
    + cbn [substring count]. specialize (IH n m). lia.
Qed.

Lemma slice_to_nat (p : string) (j : Z) :
  0 <= j <= Z.of_nat (String.length p) ->
  slice_to p j = substring 0 (Z.to_nat j) p.
Proof.
  intros Hj. unfold slice_to, slice, clip. cbn [Z.ltb Z.compare].
  destruct (j <? 0) eqn:Hneg; [apply Z.ltb_lt in Hneg; lia|].
  rewrite !Z.min_l by lia. now rewrite Z.sub_0_r.
Qed.

Lemma skip_leading_dots_true (p : string) (f d : Z) (n : nat) :
  skip_leading_dots p f d n = true -> f < d.
Proof.
  destruct n as [|n]; cbn [skip_leading_dots]; [discriminate|].
  destruct (f <? d) eqn:Hlt; [|discriminate].
  intros _. now apply Z.ltb_lt.
Qed.

(** The root that [splitext] returns is the path or a proper, non-empty
    beginning of it. *)
Lemma splitext_root_cases (p : string) :
  fst (splitext p) = p
  \/ (exists d, 0 < d < Z.of_nat (String.length p)
                /\ fst (splitext p) = substring 0 (Z.to_nat d) p).
Proof.
  unfold splitext. cbv zeta.
  destruct (rfind sep p <? rfind extsep p) eqn:Hlt; [|now left].
  destruct (skip_leading_dots _ _ _ _) eqn:Hskip; [|now left].
  right. apply skip_leading_dots_true in Hskip. apply Z.ltb_lt in Hlt.
  unfold rfind in *.
  destruct (@rfind_from_range sep p 0 ltac:(lia)) as [Hs|Hs];
    destruct (@rfind_from_range extsep p 0 ltac:(lia)) as [Hd|Hd]; try lia.
  all: exists (rfind_from extsep p 0); split; [lia|].
  all: cbn [fst]; apply slice_to_nat; lia.
Qed.

(** X5: the sample name of [extract_reads] is a plain file name: it holds no
    path separator, and it is empty only when the BAM path has an empty
    basename. *)
Theorem sample_is_file_name (a : Args) :
  count "/"%char (sample a) = 0%nat
  /\ (sample a = "" <-> basename (bam a) = "").
Proof.
  unfold sample. set (b := basename (bam a)).
  pose proof (basename_no_sep (bam a)) as Hb. fold b in Hb.
  destruct (splitext_root_cases b) as [->|(d & Hd & ->)].
  - split; [exact Hb | reflexivity].
  - split.
    + pose proof (count_substring_le sep b 0 (Z.to_nat d)). unfold sep in *. lia.
    + split; intros H.
      * apply (f_equal String.length) in H.
        rewrite length_substring_0 in H. cbn in H. lia.
      * rewrite H in Hd. cbn in Hd. lia.
Qed.

(** X4: the names of the files [extract_reads] writes do not depend on the
    directory of the BAM file: two BAM files of the same name in
    different directories, with the same temp and output directories,
    give the same intermediate and FASTQ files. *)
Theorem file_names_ignore_directory (a1 a2 : Args) (dir1 dir2 name : string) :
  count "/"%char name = 0%nat ->
  bam a1 = (dir1 ++ "/" ++ name)%string ->
  bam a2 = (dir2 ++ "/" ++ name)%string ->
  temp a1 = temp a2 -> outdir a1 = outdir a2 ->
  truthy (paired a1) = truthy (paired a2) ->
  sample a1 = fst (splitext name)
  /\ sample a2 = fst (splitext name)
  /\ intermediate_files a1 = intermediate_files a2
  /\ fastq_files a1 = fastq_files a2.
Proof.
  intros Hn H1 H2 Ht Ho Hp.
  assert (Hs1 : sample a1 = fst (splitext name))
    by (unfold sample; now rewrite H1, basename_join).
  assert (Hs2 : sample a2 = fst (splitext name))
    by (unfold sample; now rewrite H2, basename_join).
  repeat split; try assumption.
  - unfold intermediate_files, hla_filtered, hla_filtered_bam, hla_sorted.
    now rewrite Hs1, Hs2, Ht.
  - unfold fastq_files. now rewrite Hs1, Hs2, Ho, Hp.
Qed.

Lemma main_log_last_char (outdir bam : string) :
  last_char (main_log_file None outdir bam) = Some "g"%char.
Proof.
  unfold main_log_file. rewrite join3, <- append_assoc.
  rewrite last_char_append by discriminate. reflexivity.
Qed.

(** X6: the default log file of the main block is none of the files that
    [extract_reads] tests, writes, compresses or removes for the same
    BAM file and output directory. *)
Theorem default_log_file_is_kept (a : Args) :
  let log_file := main_log_file None (outdir a) (bam a) in
  log_file = (outdir a ++ main_sample (bam a) ++ ".extract.log")%string
  /\ main_log_file (Some EmptyString) (outdir a) (bam a) = log_file
  /\ ~ In log_file (intermediate_files a)
  /\ log_file <> (bam a ++ ".bai")%string
  /\ (forall fq, In fq (fastq_files a) ->
                 log_file <> fq /\ log_file <> (fq ++ ".gz")%string).
Proof.
  intros log_file.
  pose proof (main_log_last_char (outdir a) (bam a)) as Hg. fold log_file in Hg.
  split; [reflexivity|]. split; [reflexivity|]. split; [|split].
  - intros Hin. apply (@intermediate_last_char a) in Hin. congruence.
  - intros Heq. rewrite Heq in Hg.
    rewrite last_char_append in Hg by discriminate. discriminate.
  - intros fq Hfq. apply fastq_last_char in Hfq as [Hq Hz].
    split; intros Heq; rewrite Heq in Hg; congruence.
Qed.

Lemma split_head_whole (c : ascii) (s : string) :
  count c s = 0%nat -> nth 0 (split c s) EmptyString = s.
Proof.
  induction s as [|a s IH]; [reflexivity|].
  rewrite split_head_cons. cbn [count].
  destruct (Ascii.eqb a c); [discriminate|].
  cbn [Nat.add]. intros H. now rewrite IH.
Qed.

Lemma prefix_nil (s : string) : String.prefix "" s = true.
Proof. now destruct s. Qed.

Lemma slice_first (x : ascii) (s : string) :
  slice (String x s) 0 (0 + 1) = String x EmptyString.
Proof.
  unfold slice, clip. cbn [Z.ltb Z.compare Z.add String.length].
  rewrite Z.min_l by lia. rewrite Z.min_l by lia.
  cbn [Z.sub Z.opp Z.add Z.to_nat Pos.to_nat Pos.iter_op Nat.add substring].
  now destruct s.
Qed.

(** The root of a file name without any dot is the name itself. *)
Lemma splitext_no_dot (b : string) :
  count extsep b = 0%nat -> fst (splitext b) = b.
Proof.
  intros Hc. unfold splitext, rfind. cbv zeta.
  rewrite (@rfind_from_absent extsep b 0 Hc).
  destruct (rfind_from sep b 0 <? -1) eqn:Hlt; [|reflexivity].
  apply Z.ltb_lt in Hlt.
  destruct (@rfind_from_range sep b 0 ltac:(lia)); lia.
Qed.

(** The root of a file name that starts with its only dot is the name
    itself. *)
Lemma splitext_leading_dot (rest : string) :
  count sep rest = 0%nat -> count extsep rest = 0%nat ->
  fst (splitext (String extsep rest)) = String extsep rest.
Proof.
  intros Hs Hd. unfold splitext, rfind. cbv zeta.
  change (String extsep rest) with (EmptyString ++ String extsep rest)%string.
  rewrite (@rfind_from_append_sep extsep EmptyString rest 0) by (lia || assumption).
  cbn [String.append String.length Z.of_nat Z.add].
  rewrite (@rfind_from_absent sep (String extsep rest) 0)
    by (cbn [count]; rewrite Hs; reflexivity).
  reflexivity.
Qed.

(** The root of a file name [h.rest] with a single dot, after a
    non-empty [h], is [h]. *)
Lemma splitext_single_dot (x : ascii) (h rest : string) :
  count sep (String x h ++ String extsep rest) = 0%nat ->
  count extsep (String x h) = 0%nat -> count extsep rest = 0%nat ->
  fst (splitext (String x h ++ String extsep rest)) = String x h.
Proof.
  intros Hs Hh Hd. unfold splitext, rfind. cbv zeta.
  rewrite (@rfind_from_append_sep extsep (String x h) rest 0)
    by (lia || assumption).
  rewrite (@rfind_from_absent sep _ 0 Hs).
  cbn [String.length].
  replace (-1 <? 0 + Z.of_nat (S (String.length h))) with true
    by (symmetry; apply Z.ltb_lt; lia).
  replace (Z.to_nat (0 + Z.of_nat (S (String.length h)) - (-1 + 1)))
    with (S (String.length h)) by lia.
  cbn [skip_leading_dots]. change (-1 + 1) with 0.
  replace (0 <? 0 + Z.of_nat (S (String.length h))) with true
    by (symmetry; apply Z.ltb_lt; lia).
  cbn [String.append]. rewrite slice_first.
  assert (Hx : Ascii.eqb x extsep = false).
  { cbn [count] in Hh. destruct (Ascii.eqb x extsep); [discriminate|reflexivity]. }
  cbn [String.eqb]. rewrite Hx. cbn [negb fst].
  rewrite slice_to_nat
    by (cbn [String.length]; rewrite length_append; cbn [String.length]; lia).
  replace (Z.to_nat (0 + Z.of_nat (S (String.length h))))
    with (String.length (String x h)) by (cbn [String.length]; lia).
  exact (substring_prefix (String x h) (String extsep rest)).
Qed.

(** X9: when the two sample names agree: the sample name of [extract_reads]
    and the one of the main block are the same exactly when the
    basename of the BAM path has no dot, or has a single dot that is not
    its first character. *)
Theorem sample_names_agree_iff (a : Args) :
  let b := basename (bam a) in
  sample a = main_sample (bam a)
  <-> (count "."%char b = 0%nat
       \/ (count "."%char b = 1%nat /\ String.prefix "." b = false)).
Proof.
  intros b. unfold sample, main_sample. fold b.
  pose proof (basename_no_sep (bam a)) as Hsep. fold b in Hsep.
  destruct (count "."%char b) as [|[|n]] eqn:Hc.
  - rewrite (@splitext_no_dot b Hc), (@split_head_whole _ _ Hc). tauto.
  - destruct (@split_head_prefix "."%char b ltac:(lia)) as [rest Hb].
    pose proof (split_head_no_sep "."%char b) as Hh.
    set (h := nth 0 (split "."%char b) EmptyString) in *.
    assert (Hrest : count "."%char rest = 0%nat).
    { rewrite Hb, count_append in Hc. cbn [count] in Hc.
      rewrite Ascii.eqb_refl in Hc. lia. }
    destruct h as [|x h].
    + cbn [String.append] in Hb. rewrite Hb.
      assert (Hsr : count sep rest = 0%nat).
      { rewrite Hb in Hsep. cbn [count] in Hsep.
        destruct (Ascii.eqb "." sep); [discriminate|exact Hsep]. }
      pose proof (splitext_leading_dot rest Hsr Hrest) as Hl.
      unfold extsep in Hl. rewrite Hl.
      cbn [String.prefix]. destruct (ascii_dec "." "."); [|congruence].
      rewrite prefix_nil. split; [discriminate|].
      intros [H|[_ H]]; discriminate.
    + rewrite Hb in Hsep |- *.
      pose proof (splitext_single_dot x h rest Hsep Hh Hrest) as Hl.
      unfold extsep in Hl. rewrite Hl.
      split; [intros _; right; split; [reflexivity|]|reflexivity].
      cbn [String.append String.prefix].
      destruct (ascii_dec "." x) as [<-|Hne]; [|reflexivity].
      cbn [count] in Hh. rewrite Ascii.eqb_refl in Hh. discriminate.
  - split.
    + intros Heq.
      pose proof (@sample_longer_than_main_sample b ltac:(lia)) as Hlen.
      rewrite Heq in Hlen. lia.
    + intros [H|[H _]]; discriminate.
Qed.

Lemma substring_app_ge (s t : string) (k : nat) :
  (String.length s <= k)%nat ->
  substring 0 k (s ++ t) = (s ++ substring 0 (k - String.length s) t)%string.
Proof.
  revert k. induction s as [|x s IH]; intros k Hk.
  - cbn [String.append String.length]. now rewrite Nat.sub_0_r.
  - cbn [String.length] in Hk. destruct k as [|k]; [lia|].
    cbn [String.append substring String.length Nat.sub].
    rewrite IH by lia. reflexivity.
Qed.

(** X10: the sample name of the main block is a plain name without dot or
    path separator, and the sample name of [extract_reads] always
    starts with it. *)
Theorem main_sample_starts_sample (a : Args) :
  count "."%char (main_sample (bam a)) = 0%nat
  /\ count "/"%char (main_sample (bam a)) = 0%nat
  /\ exists rest, sample a = (main_sample (bam a) ++ rest)%string.
Proof.
  unfold sample, main_sample. set (b := basename (bam a)).
  pose proof (basename_no_sep (bam a)) as Hsep. fold b in Hsep.
  pose proof (split_head_no_sep "."%char b) as Hh.
  set (h := nth 0 (split "."%char b) EmptyString) in *.
  assert (Hpre : exists t, b = (h ++ t)%string
                           /\ (count "."%char b = 0%nat \/
                               Z.of_nat (String.length h) <= rfind extsep b)).
  { destruct (count "."%char b) as [|n] eqn:Hc.
    - exists EmptyString. subst h.
      rewrite (@split_head_whole _ _ Hc), append_nil_r. auto.
    - destruct (@split_head_prefix "."%char b ltac:(lia)) as [rest Hb].
      exists (String "." rest). split; [exact Hb|]. right.
      pose proof (@rfind_from_found "."%char b 0 ltac:(lia) ltac:(lia)).
      unfold rfind, extsep. subst h. lia. }
  destruct Hpre as (t & Hb & Hcase).
  split; [exact Hh|]. split.
  - rewrite Hb, count_append in Hsep. unfold sep in Hsep. lia.
  - destruct Hcase as [Hc|Hge].
    + rewrite (@splitext_no_dot b Hc). now exists t.
    + unfold splitext. cbv zeta.
      destruct (rfind sep b <? rfind extsep b) eqn:Hlt; [|now exists t].
      destruct (skip_leading_dots _ _ _ _); [|now exists t].
      cbn [fst].
      destruct (@rfind_from_range extsep b 0 ltac:(lia)) as [Hr|Hr];
        unfold rfind in *; [lia|].
      rewrite slice_to_nat by lia.
      set (k := Z.to_nat (rfind_from extsep b 0)).
      assert (Hk : (String.length h <= k)%nat) by (subst k; lia).
      clearbody k. rewrite Hb.
      rewrite substring_app_ge by exact Hk. eexists. reflexivity.
Qed.

Lemma sample_no_sep (a : Args) : count sep (sample a) = 0%nat.
Proof.
  unfold sample. pose proof (basename_no_sep (bam a)) as Hb.
  destruct (splitext_root_cases (basename (bam a))) as [->|(d & _ & ->)].
  - exact Hb.
  - pose proof (count_substring_le sep (basename (bam a)) 0 (Z.to_nat d)). lia.
Qed.

Lemma basename_in_directory (dir : string) (a : Args) (suffix : string) :
  count sep suffix = 0%nat ->
  basename ((dir ++ "/") ++ sample a ++ suffix) = (sample a ++ suffix)%string.
Proof.
  intros Hs. rewrite append_assoc. apply basename_join.
  rewrite count_append, sample_no_sep, Hs. reflexivity.
Qed.

Lemma basename_gz (dir : string) (a : Args) (suffix : string) :
  count sep suffix = 0%nat ->
  basename (((dir ++ "/") ++ sample a ++ suffix) ++ ".gz")
  = (basename ((dir ++ "/") ++ sample a ++ suffix) ++ ".gz")%string.
Proof.
  intros Hs. rewrite (basename_in_directory dir a suffix Hs).
  replace (((dir ++ "/") ++ sample a ++ suffix) ++ ".gz")%string
    with ((dir ++ "/") ++ sample a ++ (suffix ++ ".gz"))%string
    by (now rewrite !append_assoc).
  rewrite basename_in_directory
    by (rewrite count_append, Hs; reflexivity).
  now rewrite append_assoc.
Qed.

(** X11: when the temp and output directories end with a slash, every
    intermediate file lies directly in the temp directory and every
    FASTQ file directly in the output directory: its basename is the
    sample name followed by the fixed suffix. *)
Theorem files_sit_in_their_directories (a : Args) (tdir odir : string) :
  temp a = (tdir ++ "/")%string -> outdir a = (odir ++ "/")%string ->
  map basename (intermediate_files a)
  = [(sample a ++ ".hla.sam")%string; (sample a ++ ".hla.bam")%string;
     (sample a ++ ".hla.sorted.bam")%string]
  /\ map basename (fastq_files a)
     = (if truthy (paired a)
        then [(sample a ++ ".extracted.1.fq")%string;
              (sample a ++ ".extracted.2.fq")%string]
        else [(sample a ++ ".extracted.fq")%string])
  /\ (forall fq, In fq (fastq_files a) ->
                 basename (fq ++ ".gz") = (basename fq ++ ".gz")%string).
Proof.
  intros Ht Ho.
  assert (Hfq : map basename (fastq_files a)
                = (if truthy (paired a)
                   then [(sample a ++ ".extracted.1.fq")%string;
                         (sample a ++ ".extracted.2.fq")%string]
                   else [(sample a ++ ".extracted.fq")%string])).
  { unfold fastq_files. rewrite Ho.
    destruct (truthy (paired a)); cbn [map];
      rewrite !basename_in_directory by reflexivity; reflexivity. }
  split; [|split; [exact Hfq|]].
  - unfold intermediate_files, hla_filtered, hla_filtered_bam, hla_sorted.
    rewrite Ht. cbn [map].
    rewrite !basename_in_directory by reflexivity. reflexivity.
  - intros fq Hin. unfold fastq_files in Hin. rewrite Ho in Hin.
    destruct (truthy (paired a)); cbn [In] in Hin;
      repeat match type of Hin with
             | _ \/ _ => destruct Hin as [<-|Hin]
             | False => destruct Hin
             end;
      apply basename_gz; reflexivity.
Qed.

End FileNames.

(** ** Further properties of the alt extractions *)

Section Alts.
Import PyStr OsPath ExtractPy Pipeline.
Context {W : Type} (E : Env W).

Lemma occurs_in_trans (s t u : string) :
  occurs_in s t -> occurs_in t u -> occurs_in s u.
Proof.
  intros (p1 & q1 & ->) (p2 & q2 & ->).
  exists (p2 ++ p1), (q1 ++ q2). now rewrite !append_assoc.
Qed.

Lemma occurs_in_nil (s : string) : occurs_in "" s.
Proof. now exists "", s. Qed.

(** X7: names are looked up as substrings of the whole header text: for
    the header that the program reads from the header dump (its output
    decoded), a name in [alts] that is part of any text occurring in
    the header gets its extraction, and so does the empty name,
    whatever that header says. *)
Theorem alts_match_as_substrings (a : Args) (w : W) (header : string) :
  dump_header a (trace (extract_run E a w)) = Some header ->
  let cmds := commands (trace (extract_run E a w)) in
  (forall alt contig,
      In alt (alts a) -> occurs_in alt contig -> occurs_in contig header ->
      In ["samtools"; "view"; "-@" ++ threads a; mapped_filter a; bam a;
          alt ++ ":"; ">>"; hla_filtered a] cmds)
  /\ (In "" (alts a) ->
      In ["samtools"; "view"; "-@" ++ threads a; mapped_filter a; bam a;
          ":"; ">>"; hla_filtered a] cmds).
Proof.
  intros Hd cmds. apply dump_header_some in Hd as (_ & _ & Hc).
  assert (Hany : forall alt, In alt (alts a) -> occurs_in alt header ->
                             In (cmd_region a (mapped_filter a) (alt ++ ":")) cmds).
  { intros alt Hin Hocc. subst cmds. rewrite Hc.
    apply in_or_app. right. apply In_body. do 4 right. left.
    exists alt. repeat split; [exact Hin|]. now apply contains_true_iff. }
  split.
  - intros alt contig Hin H1 H2. apply (Hany alt Hin).
    exact (occurs_in_trans H1 H2).
  - intros Hin. exact (Hany "" Hin (occurs_in_nil header)).
Qed.

Lemma count_occ_alt_steps (a : Args) (header alt : string) :
  count_occ (list_eq_dec string_dec) (alt_steps a header)
            (cmd_region a (mapped_filter a) (alt ++ ":"))
  = if contains alt header then count_occ string_dec (alts a) alt else 0.
Proof.
  unfold alt_steps, alts_present.
  induction (alts a) as [|x l IH]; cbn [filter map count_occ].
  - now destruct (contains alt header).
  - destruct (string_dec x alt) as [->|Hne].
    + destruct (contains alt header) eqn:Hc; cbn [map count_occ].
      * destruct (list_eq_dec string_dec _ _) as [_|Hbad]; [|congruence].
        now rewrite IH.
      * exact IH.
    + destruct (contains x header); cbn [map count_occ]; [|exact IH].
      destruct (list_eq_dec string_dec _ _) as [Heq|_]; [|exact IH].
      unfold cmd_region in Heq. injection Heq as Heq.
      apply append_inj_colon in Heq. congruence.
Qed.

(** X8: the loop over [alts] does not deduplicate: for the header that
    the program reads from the header dump (its output decoded), the extraction of a name is issued as many times as
    the name is listed in [alts] when it occurs in the header, and not
    at all when it does not. *)
Theorem alt_extractions_counted (a : Args) (w : W) (header alt : string) :
  dump_header a (trace (extract_run E a w)) = Some header ->
  count_occ (list_eq_dec string_dec)
            (commands (trace (extract_run E a w)))
            ["samtools"; "view"; "-@" ++ threads a; mapped_filter a; bam a;
             alt ++ ":"; ">>"; hla_filtered a]
  = if contains alt header then count_occ string_dec (alts a) alt else 0.
Proof.
  intros Hd. apply dump_header_some in Hd as (_ & _ & Hc). rewrite Hc.
  change ["samtools"; "view"; "-@" ++ threads a; mapped_filter a; bam a;
          alt ++ ":"; ">>"; hla_filtered a]
    with (cmd_region a (mapped_filter a) (alt ++ ":")).
  unfold body. rewrite !count_occ_app, count_occ_alt_steps.
  assert (Hz : forall l, ~ In (cmd_region a (mapped_filter a) (alt ++ ":")) l ->
                         count_occ (list_eq_dec string_dec) l
                                   (cmd_region a (mapped_filter a) (alt ++ ":")) = 0)
    by (intros l; apply count_occ_not_In).
  rewrite (Hz (index_step _ _)), (Hz [_; _; _]), (Hz (unmapped_step _ _)),
    (Hz [_; _; _]), (Hz (map _ _)).
  - lia.
  - rewrite in_map_iff. intros (fq & Heq & _). discriminate.
  - unfold cmd_sam_to_bam, cmd_sort, cmd_bamtofastq, cmd_region.
    destruct (truthy (paired a)); cbn [In];
      intros [H|[H|[H|[]]]]; discriminate.
  - unfold unmapped_step, cmd_region, mapped_filter, unmapped_filter.
    destruct (truthy (unmapped a)), (truthy (paired a)); cbn [In];
      intros H; repeat destruct H as [H|H]; try discriminate; auto.
  - unfold cmd_header_dump, cmd_header_only, cmd_region, chrom_of.
    cbn [In]. intros [H|[H|[H|[]]]]; try discriminate.
    injection H as H.
    destruct (contains "SN:chr" header); symmetry in H;
      [exact (append_colon_not_chr6 alt H) | exact (append_colon_not_6 alt H)].
  - unfold index_step. destruct (index_needed E a w); cbn [In];
      intros H; repeat destruct H as [H|H]; try discriminate; auto.
Qed.

End Alts.

(** ** The further properties on the sample BAM file *)

Section MoreSamples.
Import PyStr OsPath ExtractPy Pipeline.

Lemma index_bam_idempotent_witness :
  outcome (run Toy.env (index_bam Toy.sample_bam) Toy.w_ok) = Returned tt
  /\ commands (trace (run Toy.env (index_bam Toy.sample_bam)
                          (final (run Toy.env (index_bam Toy.sample_bam)
                                      Toy.w_ok)))) = [].
Proof.
  split; [reflexivity|].
  exact (proj1 (@index_bam_idempotent _ Toy.env Toy.sample_bam Toy.w_ok
                                      eq_refl)).
Defined.

Lemma same_call_same_commands_witness :
  same_call sample_args sample_args_kept
  /\ commands (trace (extract_run Toy.env sample_args Toy.w_ok))
     = commands (trace (extract_run Toy.env sample_args_kept Toy.w_ok)).
Proof.
  assert (H : same_call sample_args sample_args_kept) by (repeat split).
  split; [exact H|].
  exact (proj1 (@same_call_same_commands _ Toy.env sample_args
                                         sample_args_kept Toy.w_ok H)).
Defined.

Lemma file_names_ignore_directory_witness :
  count "/"%char "NA12878.sorted.bam" = 0
  /\ bam sample_args = "/data" ++ "/" ++ "NA12878.sorted.bam"
  /\ bam sample_args_elsewhere = "/archive/2018" ++ "/" ++ "NA12878.sorted.bam"
  /\ intermediate_files sample_args = intermediate_files sample_args_elsewhere.
Proof.
  split; [reflexivity|]. split; [reflexivity|]. split; [reflexivity|].
  exact (proj1 (proj2 (proj2
           (@file_names_ignore_directory sample_args sample_args_elsewhere
              "/data" "/archive/2018" "NA12878.sorted.bam"
              eq_refl eq_refl eq_refl eq_refl eq_refl eq_refl)))).
Defined.

Lemma alts_match_as_substrings_witness :
  dump_header sample_args (trace (extract_run Toy.env sample_args Toy.w_ok))
  = Some Toy.sample_header
  /\ In "chr6_GL000250v2_alt" (alts sample_args)
  /\ occurs_in "chr6_GL000250v2_alt" "SN:chr6_GL000250v2_alt"
  /\ occurs_in "SN:chr6_GL000250v2_alt" Toy.sample_header
  /\ In ["samtools"; "view"; "-@4"; "-f 2"; "/data/NA12878.sorted.bam";
         "chr6_GL000250v2_alt:"; ">>"; "/tmp/NA12878.sorted.hla.sam"]
        (commands (trace (extract_run Toy.env sample_args Toy.w_ok))).
Proof.
  assert (H1 : occurs_in "chr6_GL000250v2_alt" "SN:chr6_GL000250v2_alt")
    by (now exists "SN:", "").
  assert (H2 : occurs_in "SN:chr6_GL000250v2_alt" Toy.sample_header)
    by (now exists "@SQ SN:chr6 LN:170805979 @SQ ", "").
  split; [reflexivity|]. split; [now left|]. split; [exact H1|].
  split; [exact H2|].
  exact (proj1 (@alts_match_as_substrings _ Toy.env sample_args Toy.w_ok
                                          Toy.sample_header eq_refl)
               "chr6_GL000250v2_alt" "SN:chr6_GL000250v2_alt"
               (or_introl eq_refl) H1 H2).
Defined.

Lemma alt_extractions_counted_witness :
  dump_header sample_args (trace (extract_run Toy.env sample_args Toy.w_ok))
  = Some Toy.sample_header
  /\ count_occ (list_eq_dec string_dec)
               (commands (trace (extract_run Toy.env sample_args Toy.w_ok)))
               ["samtools"; "view"; "-@" ++ threads sample_args;
                mapped_filter sample_args; bam sample_args;
                "chr6_GL000250v2_alt" ++ ":"; ">>"; hla_filtered sample_args]
     = 1.
Proof.
  split; [reflexivity|].
  rewrite (@alt_extractions_counted _ Toy.env sample_args Toy.w_ok
                                    Toy.sample_header "chr6_GL000250v2_alt"
                                    eq_refl).
  reflexivity.
Defined.

Lemma files_sit_in_their_directories_witness :
  temp sample_args = "/tmp" ++ "/"
  /\ outdir sample_args = "out" ++ "/"
  /\ map basename (intermediate_files sample_args)
     = ["NA12878.sorted.hla.sam"; "NA12878.sorted.hla.bam";
        "NA12878.sorted.hla.sorted.bam"].
Proof.
  split; [reflexivity|]. split; [reflexivity|].
  exact (proj1 (@files_sit_in_their_directories sample_args "/tmp" "out"
                                                eq_refl eq_refl)).
Defined.

Lemma ascii_header_run_returns_witness :
  env_isfile Toy.env (indexed_world Toy.env sample_args Toy.w_ok)
             (bam sample_args ++ ".bai") = true
  /\ all_ascii (header_at Toy.env sample_args Toy.w_ok) = true
  /\ outcome (extract_run Toy.env sample_args Toy.w_ok) = Returned tt.
Proof.
  split; [reflexivity|]. split; [reflexivity|].
  exact (proj1 (@ascii_header_run_returns _ Toy.env sample_args Toy.w_ok
                                          eq_refl eq_refl)).
Defined.

(** A hidden file name has a single dot and still two sample names. *)
Example hidden_bam_names :
  fst (splitext (basename "/data/.bam")) = ".bam"
  /\ main_sample "/data/.bam" = "".
Proof. split; reflexivity. Qed.

End MoreSamples.
